(** * nonebot-adapter-kaiheila: the websocket adapter

    A shallow embedding of [src/nonebot/adapters/kaiheila/adapter.py]:
    the frame decoder [Adapter.json_to_event], the event model registry
    ([add_custom_model], [get_event_model]), the heartbeat task
    [start_heartbeat] and the receive loop with its teardown in
    [_forward_ws].

    Python objects are embedded as values of type [value]; a [dict] is a
    finite map with string keys.  An assignment [data[k] = v] on a dict
    shared through several names is written as a functional update of the
    one map all these names stand for. *)

From Stdlib Require Import ZArith Ascii String.
From stdpp Require Import gmap strings list fin_maps pretty sorting.

Open Scope string_scope.

(** ** Python values *)

(** What [json.loads] produces, plus a message object of message.py,
    kept as the value it was built from.  JSON numbers are integers
    here, and a string is the sequence of the bytes of its UTF-8 form. *)
#[warnings="-register-all"]
Inductive value : Type :=
  | PNone
  | PBool (b : bool)
  | PInt (n : Z)
  | PStr (s : string)
  | PList (l : list value)
  | PDict (d : gmap string value)
  | PMessage (content : value).

Abbreviation dict := (gmap string value).

(** Exceptions that the modelled code raises or lets through. *)
Inductive exn : Type :=
  | ReconnectError
  | TokenError (msg : string)
  | KeyError (key : string)
  | TypeError
  | AttributeError
  | IndexError
  | ValueError (msg : string)
  | ValidationError
  | NetworkError.

#[export] Instance exn_ret : MRet (sum exn) := fun _ x => inr x.
#[export] Instance exn_bind : MBind (sum exn) := fun _ _ f m =>
  match m with
  | inl e => inl e
  | inr x => f x
  end.

Definition raise {A} (e : exn) : exn + A := inl e.

Module Py.

(** [bool(v)] *)
Definition truthy (v : value) : bool :=
  match v with
  | PNone => false
  | PBool b => b
  | PInt n => negb (n =? 0)%Z
  | PStr s => negb (String.eqb s "")
  | PList l => match l with [] => false | _ => true end
  | PDict d => match map_to_list d with [] => false | _ => true end
  | PMessage _ => true
  end.

(** The integer a value compares as: [True == 1] and [False == 0]. *)
Definition as_int (v : value) : option Z :=
  match v with
  | PInt n => Some n
  | PBool b => Some (Z.b2z b)
  | _ => None
  end.

(** [v == n] for an integer (or [IntEnum] member) [n]. *)
Definition eq_int (v : value) (n : Z) : bool :=
  match as_int v with
  | Some m => (m =? n)%Z
  | None => false
  end.

(** [v == s] for a string [s]. *)
Definition eq_str (v : value) (s : string) : bool :=
  match v with
  | PStr t => String.eqb t s
  | _ => false
  end.

(** An [Optional[str]] as a value. *)
Definition of_optstr (o : option string) : value :=
  match o with
  | Some s => PStr s
  | None => PNone
  end.

(** [v == o] for [o : Optional[str]]. *)
Definition eq_optstr (v : value) (o : option string) : bool :=
  match v, o with
  | PNone, None => true
  | PStr t, Some s => String.eqb t s
  | _, _ => false
  end.

(** [d.get(k)] *)
Definition get (d : dict) (k : string) : value := default PNone (d !! k).

(** [v.get(k)]: only a dict has the method. *)
Definition attr_get (v : value) (k : string) : exn + value :=
  match v with
  | PDict d => inr (get d k)
  | _ => raise AttributeError
  end.

(** [d[k]] on a dict *)
Definition item (d : dict) (k : string) : exn + value :=
  match d !! k with
  | Some v => inr v
  | None => raise (KeyError k)
  end.

(** [v[k]] with a string key [k] *)
Definition getitem (v : value) (k : string) : exn + value :=
  match v with
  | PDict d => item d k
  | _ => raise TypeError
  end.

(** [v[k] = x] with a string key [k] *)
Definition setitem (v : value) (k : string) (x : value) : exn + value :=
  match v with
  | PDict d => inr (PDict (<[k := x]> d))
  | _ => raise TypeError
  end.

Definition lower_ascii (c : ascii) : ascii :=
  let n := nat_of_ascii c in
  if (Nat.leb 65 n && Nat.leb n 90)%bool then ascii_of_nat (n + 32) else c.

(** The small letters for the capitals A to Z, every other byte as it
    is. *)
Fixpoint ascii_lower (s : string) : string :=
  match s with
  | EmptyString => EmptyString
  | String c s' => String (lower_ascii c) (ascii_lower s')
  end.

(** [s.isascii()] *)
Definition is_ascii (s : string) : bool :=
  forallb (fun c => Nat.ltb (nat_of_ascii c) 128) (list_ascii_of_string s).

(** What the adapter takes from Python and from its libraries as it
    finds them.

    [s.lower()] maps every cased character of [s] by the tables of
    Unicode; of these only the part for ASCII strings is written out:
    there it is [ascii_lower].

    [Message.template("{}").format(content)] is the work of message.py
    and of nonebot, which are not under src/: it returns a message
    object, or it raises. *)
Class Library := {
  lower : string -> string;
  lower_ascii_strings : forall s, is_ascii s = true -> lower s = ascii_lower s;
  format_template : value -> exn + value
}.

(** [v.lower()]: only a string has the method. *)
Definition attr_lower `{Library} (v : value) : exn + string :=
  match v with
  | PStr s => inr (lower s)
  | _ => raise AttributeError
  end.

(** [s.split(sep)] for a one-character separator. *)
Fixpoint split (sep : ascii) (s : string) : list string :=
  match s with
  | EmptyString => [EmptyString]
  | String c s' =>
      if Ascii.eqb c sep then EmptyString :: split sep s'
      else match split sep s' with
           | [] => [String c EmptyString]
           | w :: ws => String c w :: ws
           end
  end.

Section Str.
(** [str(v)] of a list, a dict or a message object is Python's [repr]
    of it; it is left open. *)
Variable repr : value -> string.

(** [str(v)], as used by an f-string. *)
Definition str (v : value) : string :=
  match v with
  | PNone => "None"
  | PBool true => "True"
  | PBool false => "False"
  | PInt n => pretty n
  | PStr s => s
  | _ => repr v
  end.
End Str.

End Py.

(** ** What adapter.py takes from event.py *)

(** [SignalTypes], an [IntEnum]; only the members the decoder names. *)
Record SignalTable := {
  HELLO : Z;
  PONG : Z;
  EVENT : Z;
  RECONNECT : Z;
  RESUME_ACK : Z
}.

(** Distinct members of an enumeration have distinct values. *)
Definition distinct_signals (T : SignalTable) : Prop :=
  NoDup [HELLO T; PONG T; EVENT T; RECONNECT T; RESUME_ACK T].

(** Modelled from the spec: the signal numbers of event.py, which is not
    under src/; the wire protocol section gives 0=EVENT, 1=HELLO, 3=PONG,
    6=RECONNECT, 7=RESUME_ACK. *)
Definition spec_signals : SignalTable :=
  {| HELLO := 1; PONG := 3; EVENT := 0; RECONNECT := 6; RESUME_ACK := 7 |}.

(** [EventTypes], an [IntEnum]: its members, name and value, in the order
    of the definition (the order in which iterating the class yields
    them).  Aliases are not modelled: every member is listed once. *)
Abbreviation EventTable := (list (string * Z)).

(** [E.name], the value of the member called [name]. *)
Definition enum_attr (E : EventTable) (name : string) : exn + Z :=
  match list_find (fun m => String.eqb m.1 name = true) E with
  | Some (_, m) => inr m.2
  | None => raise AttributeError
  end.

(** An event class: its [__event__] path, its class name with the names
    of the classes it inherits from, and the validation its fields
    impose on the dict it is parsed from. *)
Record Model := {
  class_name : string;
  bases : list string;
  __event__ : string;
  validate : dict -> bool
}.

(** An event object.  The field declarations of the event classes are in
    event.py; an event is kept as its class and the dict it was parsed
    from, and its fields are read from that dict. *)
Record event := {
  ev_model : Model;
  ev_fields : dict
}.

Definition field (e : event) (k : string) : option value := ev_fields e !! k.

(** [model.parse_obj(obj)] *)
Definition parse_obj (model : Model) (obj : dict) : exn + event :=
  if validate model obj then inr {| ev_model := model; ev_fields := obj |}
  else raise ValidationError.

(** [isinstance(e, cls)] for the class called [cls] *)
Definition isinstance (e : event) (cls : string) : bool :=
  (String.eqb (class_name (ev_model e)) cls
   || existsb (String.eqb cls) (bases (ev_model e)))%bool.

(** Modelled from the spec: LifecycleMetaEvent is declared in event.py,
    which is not under src/.  The spec's example for [{"s":1,"d":{"code":0}}]
    says the lifecycle-connect meta event needs no further fields: the
    shape asks for [post_type] "meta_event", [meta_event_type] "lifecycle"
    and a textual [sub_type], and for nothing else.  Of its name, base
    classes and path only the name is used, by the receive loop. *)
Definition LifecycleMetaEvent : Model :=
  {| class_name := "LifecycleMetaEvent";
     bases := ["MetaEvent"; "Event"; "OriginEvent"];
     __event__ := "meta_event.lifecycle";
     validate := fun d =>
       (Py.eq_str (Py.get d "post_type") "meta_event"
        && Py.eq_str (Py.get d "meta_event_type") "lifecycle"
        && match d !! "sub_type" with Some (PStr _) => true | _ => false end)%bool |}.

(** ** utils.ResultStore *)

Module ResultStore.

(** Modelled from the spec: ResultStore is defined in utils.py, which is
    not under src/.  [set(identity, sn)] records the latest sequence
    number seen for the identity.  The identity is the hint of the
    decoder, which is [None] before a bot is bound. *)
Definition set_sn (store : gmap (option string) value)
    (self_id : option string) (sn : value) : gmap (option string) value :=
  <[self_id := sn]> store.

(** Modelled from the spec: [get(identity)] returns the last recorded
    value, or 0 if none was recorded. *)
Definition get_sn (store : gmap (option string) value)
    (self_id : option string) : value :=
  default (PInt 0) (store !! self_id).

End ResultStore.

Abbreviation sn_store := (gmap (option string) value).

(** ** pygtrie.StringTrie *)

Module StringTrie.

(** The trie maps a key, cut at the separator into its path, to a
    value; as a mapping it is a finite map on paths. *)
Abbreviation t := (gmap (list string) Model).

Definition separator : ascii := ".".

Definition path_from_key (key : string) : list string :=
  Py.split separator key.

(** [trie[key] = model] *)
Definition set (trie : t) (key : string) (model : Model) : t :=
  <[path_from_key key := model]> trie.

(** [trie.prefixes(key)]: the walk from the root towards [key] yields a
    step, the path reached and the value there, at every node on the
    way that holds a value; the shortest path comes first. *)
Definition prefixes (trie : t) (key : string) : list (list string * Model) :=
  let path := path_from_key key in
  omap (fun pos => (fun v => (take pos path, v)) <$> trie !! take pos path)
       (seq 0 (S (length path))).

End StringTrie.

(** ** The adapter *)

(** What a call of [json_to_event] does: it returns an event or [None],
    or it raises. *)
Inductive outcome : Type :=
  | Return (e : option event)
  | Raise (x : exn).

Module Adapter.

(** [add_custom_model(model)], on the class attribute [event_models] *)
Definition add_custom_model (event_models : StringTrie.t) (model : Model)
    : exn + StringTrie.t :=
  if negb (Py.truthy (PStr (__event__ model))) then
    raise (ValueError "Event model's `__event__` attribute must be set")
  else inr (StringTrie.set event_models ("." ++ __event__ model) model).

(** [get_event_model(event_name)] *)
Definition get_event_model (event_models : StringTrie.t) (event_name : string)
    : list Model :=
  reverse ((fun step => step.2) <$> StringTrie.prefixes event_models ("." ++ event_name)).

Section Decoder.

Context {lib : Py.Library}.
Variable SignalTypes : SignalTable.
Variable EventTypes : EventTable.
(** The heartbeat meta event and the base class [Event] of event.py. *)
Variable HeartbeatMetaEvent : Model.
Variable Event : Model.
Variable repr : value -> string.
(** The class attribute [event_models]. *)
Variable event_models : StringTrie.t.

(** [[i.name.lower() for i in EventTypes if i.value == extra.get('type')]];
    [extra.get] is evaluated once for each member. *)
Fixpoint sub_type_names (members : EventTable) (extra : value)
    : exn + list string :=
  match members with
  | [] => inr []
  | i :: members' =>
      ty ← Py.attr_get extra "type";
      rest ← sub_type_names members' extra;
      mret (if Py.eq_int ty i.2 then Py.lower i.1 :: rest else rest)
  end.

(** Lines 343 to 366: the payload [data = json_data['d']] is rewritten
    in place. *)
Definition normalize (data : dict) (self_id : option string) : exn + dict :=
  let extra := Py.get data "extra" in
  let data := <["self_id" := Py.of_optstr self_id]> data in
  let data := <["group_id" := Py.get data "target_id"]> data in
  let data := <["time" := Py.get data "msg_timestamp"]> data in
  let data :=
    <["user_id" := if negb (Py.eq_str (Py.get data "author_id") "1")
                   then Py.get data "author_id" else PStr "SYSTEM"]> data in
  ty ← Py.item data "type";
  sys ← enum_attr EventTypes "sys";
  data ←
    (if Py.eq_int ty sys then
       let data := <["post_type" := PStr "notice"]> data in
       notice_type ← Py.attr_get extra "type";
       let data := <["notice_type" := notice_type]> data in
       content ← Py.item data "content";
       message ← Py.format_template content;
       mret (<["message" := message]> data)
     else
       let data := <["post_type" := PStr "message"]> data in
       names ← sub_type_names EventTypes extra;
       sub_type ← match names with
                  | name :: _ => inr name
                  | [] => raise IndexError
                  end;
       let data := <["sub_type" := PStr sub_type]> data in
       message_type ← Py.attr_lower (Py.get data "channel_type");
       let data := <["message_type" := PStr message_type]> data in
       let data :=
         <["message_type" := if Py.eq_str (Py.get data "message_type") "person"
                             then PStr "private"
                             else Py.get data "message_type"]> data in
       extra' ← Py.item data "extra";
       extra' ← Py.setitem extra' "content" (Py.get data "content");
       let data := <["extra" := extra']> data in
       extra' ← Py.item data "extra";
       mret (<["event" := extra']> data));
  mret (<["message_id" := Py.get data "msg_id"]> data).

(** Lines 367 to 373: the dotted name the registry is asked for. *)
Definition event_name (data : dict) : exn + string :=
  post_type ← Py.item data "post_type";
  let detail_type := Py.get data (Py.str repr post_type ++ "_type") in
  let detail_type :=
    if Py.truthy detail_type then "." ++ Py.str repr detail_type else "" in
  let sub_type := Py.get data "sub_type" in
  let sub_type :=
    if Py.truthy sub_type then "." ++ Py.str repr sub_type else "" in
  match post_type with
  | PStr post_type => inr (post_type ++ detail_type ++ sub_type)
  | _ => raise TypeError
  end.

(** Lines 374 to 381: the loop over the candidates, with its [else]
    branch.  A candidate that fails to parse is left for the next. *)
Fixpoint parse_models (models : list Model) (data json_data : dict)
    : exn + event :=
  match models with
  | model :: models' =>
      match parse_obj model data with
      | inr ev => inr ev
      | inl _ => parse_models models' data json_data
      end
  | [] => parse_obj Event json_data
  end.

(** The body of the [try] of lines 342 to 383.  [data] is
    [json_data['d']]: once it is rewritten, [json_data] holds the
    rewritten payload.  The calls of [log] are left out. *)
Definition decode (json_data data : dict) (self_id : option string)
    : exn + event :=
  data ← normalize data self_id;
  name ← event_name data;
  let models := get_event_model event_models name in
  parse_models models data (<["d" := PDict data]> json_data).

(** Lines 338 to 390: the check for the bot's own messages, and the
    [try] whose handler logs the failure and returns nothing. *)
Definition decode_payload (json_data : dict) (self_id : option string)
    : outcome :=
  match json_data !! "d" with
  | None => Raise (KeyError "d")
  | Some (PDict data) =>
      if Py.eq_optstr (Py.get data "author_id") self_id then Return None
      else match decode json_data data self_id with
           | inr ev => Return (Some ev)
           | inl _ => Return None
           end
  | Some _ => Raise AttributeError
  end.

(** What the branch on the signal decides (lines 308 to 336): the call
    is over, or it goes on to line 338 with the store as it is now. *)
Inductive dispatched : Type :=
  | Done (r : outcome)
  | Continue.

(** The HELLO branch, lines 309 to 320. *)
Definition hello (json_data : dict) : dispatched :=
  match Py.item json_data "d" ≫= fun d => Py.getitem d "code" with
  | inl e => Done (Raise e)
  | inr code =>
      if Py.eq_int code 0 then
        match json_data !! "d" with
        | Some (PDict data) =>
            let data := <["post_type" := PStr "meta_event"]> data in
            let data := <["sub_type" := PStr "connect"]> data in
            let data := <["meta_event_type" := PStr "lifecycle"]> data in
            match parse_obj LifecycleMetaEvent data with
            | inr ev => Done (Return (Some ev))
            | inl e => Done (Raise e)
            end
        | _ => Done (Raise TypeError)
        end
      else if Py.eq_int code 40103 then Done (Raise ReconnectError)
      else if Py.eq_int code 40101 then Done (Raise (TokenError "无效的 token"))
      else if Py.eq_int code 40102 then Done (Raise (TokenError "token 验证失败"))
      else Continue
  end.

(** The PONG branch, lines 322 to 329. *)
Definition pong : dispatched :=
  let data : dict := ∅ in
  let data := <["post_type" := PStr "meta_event"]> data in
  let data := <["meta_event_type" := PStr "heartbeat"]> data in
  match parse_obj HeartbeatMetaEvent data with
  | inr ev => Done (Return (Some ev))
  | inl e => Done (Raise e)
  end.

(** Lines 306 to 336. *)
Definition dispatch (store : sn_store) (json_data : dict)
    (self_id : option string) : dispatched * sn_store :=
  match Py.item json_data "s" with
  | inl e => (Done (Raise e), store)
  | inr signal =>
      if Py.eq_int signal (HELLO SignalTypes) then (hello json_data, store)
      else if Py.eq_int signal (PONG SignalTypes) then (pong, store)
      else if Py.eq_int signal (EVENT SignalTypes) then
        match Py.item json_data "sn" with
        | inl e => (Done (Raise e), store)
        | inr sn => (Continue, ResultStore.set_sn store self_id sn)
        end
      else if Py.eq_int signal (RECONNECT SignalTypes) then
        (Done (Raise ReconnectError), store)
      else if Py.eq_int signal (RESUME_ACK SignalTypes) then
        (Done (Return None), store)
      else (Continue, store)
  end.

(** [json_to_event(json_data, self_id)], with the sequence store it
    writes to. *)
Definition json_to_event (store : sn_store) (json_data : value)
    (self_id : option string) : outcome * sn_store :=
  match json_data with
  | PDict json_data =>
      match dispatch store json_data self_id with
      | (Done r, store) => (r, store)
      | (Continue, store) => (decode_payload json_data self_id, store)
      end
  | _ => (Return None, store)
  end.

End Decoder.

(** *** The heartbeat task *)

(** A socket object, told apart by [ws_id], and whether it is closed. *)
Record WebSocket := {
  ws_id : nat;
  closed : bool
}.

(** What the heartbeat task finds when it wakes up: the registry
    [self.connections], the sequence store, and whether [send] raises
    this time. *)
Record heartbeat_env := {
  hb_connections : gmap string WebSocket;
  hb_store : sn_store;
  hb_send : option exn
}.

Inductive heartbeat_end : Type :=
  | Sleeping
  | Exited
  | Raised (e : exn).

(** The ping of lines 293 to 296, before [json.dumps]. *)
Definition ping (store : sn_store) (self_id : string) : value :=
  PDict (<["sn" := ResultStore.get_sn store (Some self_id)]>
           (<["s" := PInt 2]> ∅)).

(** [start_heartbeat(bot)] over the successive states it wakes up in:
    the frames it hands to [send], each with the socket it goes to, and
    how the task stands at the end. *)
Fixpoint start_heartbeat (self_id : string) (trace : list heartbeat_env)
    : list (WebSocket * value) * heartbeat_end :=
  match trace with
  | [] => ([], Sleeping)
  | env :: trace' =>
      match hb_connections env !! self_id with
      | None => ([], Exited)
      | Some ws =>
          if closed ws then ([], Exited)
          else
            let frame := ping (hb_store env) self_id in
            match hb_send env with
            | Some e => ([(ws, frame)], Raised e)
            | None =>
                let '(sent, how) := start_heartbeat self_id trace' in
                ((ws, frame) :: sent, how)
            end
      end
  end.

(** *** The receive loop and its teardown *)

Record Bot := {
  self_id : string;
  name : string;
  token : string
}.

Inductive notification : Type :=
  | BotConnect (bot : Bot)
  | BotDisconnect (bot : Bot)
  | HandleEvent (bot : Bot) (e : event).

(** The state a session shares with the other tasks: the sequence
    store, the registry of sockets, and what it has told the dispatch
    side so far (latest first). *)
Record adapter := {
  sn_map : sn_store;
  connections : gmap string WebSocket;
  notified : list notification
}.

(** The local variables of [_forward_ws] that outlive a connection. *)
Record session := {
  bot : option Bot;
  url : string
}.

(** What one connection meets: whether the socket opens, the frames
    [json.loads] makes of what [ws.receive()] returns (or the exception
    on the way), the answer of [_get_bot_info] and the answer of
    [_get_gateway] in the teardown. *)
Record connection := {
  opened : exn + WebSocket;
  frames : list (exn + value);
  bot_info : exn + (string * string);
  gateway : exn + string
}.

(** How one turn of the outer loop ends: [ws.receive()] is still
    awaited, a [break] leaves the loop and [_forward_ws] returns, or an
    exception reaches the outer handler, which logs it, sleeps and loops. *)
Inductive turn_end : Type :=
  | Receiving
  | Broken
  | Retry (e : exn).

Section Session.

Context {lib : Py.Library}.
Variable SignalTypes : SignalTable.
Variable EventTypes : EventTable.
Variable HeartbeatMetaEvent : Model.
Variable Event : Model.
Variable repr : value -> string.
Variable event_models : StringTrie.t.
Variable bot_token : string.

(** Lines 220 to 242: one frame. *)
Definition receive (c : connection) (ws : WebSocket) (a : adapter)
    (s : session) (frame : exn + value) : option exn * adapter * session :=
  match frame with
  | inl e => (Some e, a, s)
  | inr json_data =>
      let '(r, store) :=
        json_to_event SignalTypes EventTypes HeartbeatMetaEvent Event repr
          event_models (sn_map a) json_data (self_id <$> bot s) in
      let a := {| sn_map := store; connections := connections a;
                  notified := notified a |} in
      match r with
      | Raise e => (Some e, a, s)
      | Return None => (None, a, s)
      | Return (Some ev) =>
          match bot s with
          | Some b =>
              (None,
               {| sn_map := sn_map a; connections := connections a;
                  notified := HandleEvent b ev :: notified a |}, s)
          | None =>
              if (negb (isinstance ev "LifecycleMetaEvent")
                  || negb (Py.eq_str (Py.get (ev_fields ev) "sub_type") "connect"))%bool
              then (None, a, s)
              else
                match bot_info c with
                | inl e => (Some e, a, s)
                | inr (id, username) =>
                    let b := {| self_id := id; name := username;
                                token := bot_token |} in
                    (None,
                     {| sn_map := sn_map a;
                        connections := <[id := ws]> (connections a);
                        notified := HandleEvent b ev :: BotConnect b :: notified a |},
                     {| bot := Some b; url := url s |})
                end
          end
      end
  end.

(** Lines 219 to 242: the frames of a connection, up to the first
    exception. *)
Fixpoint receive_loop (c : connection) (ws : WebSocket)
    (a : adapter) (s : session) (fs : list (exn + value))
    : option exn * adapter * session :=
  match fs with
  | [] => (None, a, s)
  | frame :: fs' =>
      match receive c ws a s frame with
      | (Some e, a, s) => (Some e, a, s)
      | (None, a, s) => receive_loop c ws a s fs'
      end
  end.

(** Lines 243 to 260: what the handlers make of an exception of the
    loop.  The handler of [ReconnectError] reads [bot.self_id] for its
    log line. *)
Definition handle (s : session) (e : exn) : turn_end :=
  match e with
  | ReconnectError =>
      match bot s with
      | Some _ => Broken
      | None => Retry AttributeError
      end
  | TokenError msg => Retry (TokenError msg)
  | _ => Broken
  end.

(** [ws.close()]: the registry holds the socket object itself, so it
    sees the socket closed. *)
Definition close (ws : WebSocket) (registry : gmap string WebSocket)
    : gmap string WebSocket :=
  (fun w => if Nat.eqb (ws_id w) (ws_id ws)
            then {| ws_id := ws_id w; closed := true |} else w) <$> registry.

(** Lines 261 to 274, the [finally] block.  An exception of
    [_get_gateway] leaves the block at line 268. *)
Definition teardown (c : connection) (ws : WebSocket) (a : adapter)
    (s : session) : option exn * adapter * session :=
  let a := {| sn_map := sn_map a; connections := close ws (connections a);
              notified := notified a |} in
  match bot s with
  | Some b =>
      match gateway c with
      | inl e => (Some e, a, s)
      | inr url' =>
          (None,
           {| sn_map := ResultStore.set_sn (sn_map a) (Some (self_id b)) (PInt 0);
              connections := delete (self_id b) (connections a);
              notified := BotDisconnect b :: notified a |},
           {| bot := None; url := url' |})
      end
  | None => (None, a, s)
  end.

(** Lines 211 to 282: one turn of the outer loop. *)
Definition turn (c : connection) (a : adapter) (s : session)
    : turn_end * adapter * session :=
  match opened c with
  | inl e => (Retry e, a, s)
  | inr ws =>
      match receive_loop c ws a s (frames c) with
      | (None, a, s) => (Receiving, a, s)
      | (Some e, a, s) =>
          let how := handle s e in
          match teardown c ws a s with
          | (Some e', a, s) => (Retry e', a, s)
          | (None, a, s) => (how, a, s)
          end
      end
  end.

(** [_forward_ws], over the connections it makes one after the other:
    how each turn of the outer loop ended, and the state it leaves. *)
Fixpoint _forward_ws (cs : list connection) (a : adapter) (s : session)
    : list turn_end * adapter * session :=
  match cs with
  | [] => ([], a, s)
  | c :: cs' =>
      let '(how, a, s) := turn c a s in
      match how with
      | Retry _ =>
          let '(hows, a, s) := _forward_ws cs' a s in
          (how :: hows, a, s)
      | _ => ([how], a, s)
      end
  end.

End Session.

End Adapter.

(** ** Auxiliary definitions for the statements *)

(** The payload of a HELLO with code 0, once lines 311 to 313 have
    written to it. *)
Definition connect_fields (data : dict) : dict :=
  <["meta_event_type" := PStr "lifecycle"]>
    (<["sub_type" := PStr "connect"]>
       (<["post_type" := PStr "meta_event"]> data)).

(** The dict a PONG is parsed from (lines 322 to 324). *)
Definition pong_fields : dict :=
  <["meta_event_type" := PStr "heartbeat"]> (<["post_type" := PStr "meta_event"]> ∅).

(** The steps behind [get_event_model]: the registered paths on the way
    to the name asked for, each with its model, in the order of the
    result. *)
Definition candidates (event_models : StringTrie.t) (event_name : string)
    : list (list string * Model) :=
  reverse (StringTrie.prefixes event_models ("." ++ event_name)).

(** A dotted path as its components. *)
Definition components (path : string) : list string := Py.split "." path.

(** [model] is registered at the dotted path [path]. *)
Definition registered (event_models : StringTrie.t) (path : string)
    (model : Model) : Prop :=
  event_models !! StringTrie.path_from_key ("." ++ path) = Some model.

(** [a] is more specific than [b]: its path is the longer one. *)
Definition more_specific (a b : list string * Model) : Prop :=
  length b.1 < length a.1.

(** The rewritten payload, when the rewriting goes through. *)
Definition normalized {lib : Py.Library} (types : EventTable) (data : dict)
    (self_id : option string) : dict :=
  match Adapter.normalize types data self_id with
  | inr data' => data'
  | inl _ => ∅
  end.

(** Some candidate registered on the way to the name of the rewritten
    payload [data] accepts it: the payload resolves to a typed event. *)
Definition typed_candidate (repr : value -> string)
    (event_models : StringTrie.t) (data : dict) (model : Model) : Prop :=
  exists name,
    Adapter.event_name repr data = inr name
    /\ model ∈ Adapter.get_event_model event_models name
    /\ validate model data = true.

(** [None] for a failure, as the handler of line 384 returns it. *)
Definition dropped_on_failure (r : exn + event) : outcome :=
  match r with
  | inr ev => Return (Some ev)
  | inl _ => Return None
  end.

(** The call returns, or it raises one of the two exceptions that stand
    for a signal of the gateway. *)
Definition signal_error (r : outcome) : Prop :=
  match r with
  | Return _ => True
  | Raise ReconnectError => True
  | Raise (TokenError _) => True
  | Raise _ => False
  end.

(** The registry reports an open socket for the identity. *)
Definition reports_open (self_id : string) (env : Adapter.heartbeat_env) : Prop :=
  exists ws, Adapter.hb_connections env !! self_id = Some ws
             /\ Adapter.closed ws = false.

(** The registry no longer holds the identity, or reports its socket
    closed. *)
Definition reports_gone (self_id : string) (env : Adapter.heartbeat_env) : Prop :=
  Adapter.hb_connections env !! self_id = None
  \/ exists ws, Adapter.hb_connections env !! self_id = Some ws
                /\ Adapter.closed ws = true.

(** ** A sample configuration, for the examples *)

(** The message types of the platform, as an [EventTypes] table. *)
Definition sample_types : EventTable :=
  [("text", 1); ("image", 2); ("video", 3); ("file", 4); ("audio", 8);
   ("kmarkdown", 9); ("card", 10); ("sys", 255)]%Z.

Definition has_post_type (post_type : string) (d : dict) : bool :=
  Py.eq_str (Py.get d "post_type") post_type.

Definition sample_Event : Model :=
  {| class_name := "Event"; bases := ["OriginEvent"]; __event__ := "";
     validate := fun d => match d !! "post_type" with
                          | Some (PStr _) => true
                          | _ => false
                          end |}.

Definition sample_MessageEvent : Model :=
  {| class_name := "MessageEvent"; bases := ["Event"; "OriginEvent"];
     __event__ := "message"; validate := has_post_type "message" |}.

Definition sample_NoticeEvent : Model :=
  {| class_name := "NoticeEvent"; bases := ["Event"; "OriginEvent"];
     __event__ := "notice"; validate := has_post_type "notice" |}.

Definition sample_HeartbeatMetaEvent : Model :=
  {| class_name := "HeartbeatMetaEvent"; bases := ["MetaEvent"; "Event"; "OriginEvent"];
     __event__ := "meta_event.heartbeat";
     validate := fun d => (has_post_type "meta_event" d
                           && Py.eq_str (Py.get d "meta_event_type") "heartbeat")%bool |}.

Definition sample_models : StringTrie.t :=
  StringTrie.set
    (StringTrie.set
       (StringTrie.set
          (StringTrie.set ∅ ".meta_event.lifecycle" LifecycleMetaEvent)
          ".meta_event.heartbeat" sample_HeartbeatMetaEvent)
       ".message" sample_MessageEvent)
    ".notice" sample_NoticeEvent.

(** A model registered at "message.text". *)
Definition sample_TextEvent : Model :=
  {| class_name := "TextEvent"; bases := ["MessageEvent"; "Event"; "OriginEvent"];
     __event__ := "message.text"; validate := has_post_type "message" |}.

Definition text_models : StringTrie.t :=
  match Adapter.add_custom_model sample_models sample_TextEvent with
  | inr event_models => event_models
  | inl _ => sample_models
  end.



Definition sample_repr (v : value) : string := "<object>".

(** A library for the examples: [lower] is [ascii_lower] on every
    string, and the templating accepts a string and nothing else. *)
Definition sample_library : Py.Library :=
  {| Py.lower := Py.ascii_lower;
     Py.lower_ascii_strings := fun _ _ => eq_refl;
     Py.format_template := fun content =>
       match content with
       | PStr _ => inr (PMessage content)
       | _ => inl TypeError
       end |}.

(** [json_to_event] in the sample configuration. *)
Definition sample_json_to_event (store : sn_store) (json_data : value)
    (self_id : option string) : outcome * sn_store :=
  Adapter.json_to_event (lib := sample_library) spec_signals sample_types
    sample_HeartbeatMetaEvent sample_Event sample_repr sample_models store
    json_data self_id.

(** ** Sample frames *)

Definition obj (items : list (string * value)) : value :=
  PDict (list_to_map items).

Definition hello_payload : dict := list_to_map [("code", PInt 0)].

Definition hello_envelope : dict :=
  list_to_map [("s", PInt 1); ("d", PDict hello_payload)].

Definition hello_frame : value := PDict hello_envelope.

Definition text_payload : dict :=
  list_to_map [("type", PInt 1); ("channel_type", PStr "GROUP");
               ("target_id", PStr "g1"); ("msg_timestamp", PInt 1000);
               ("author_id", PStr "2"); ("extra", obj [("type", PInt 1)]);
               ("content", PStr "hi"); ("msg_id", PStr "m1")].

Definition event_frame (sn : Z) : value :=
  obj [("s", PInt 0); ("sn", PInt sn); ("d", PDict text_payload)].

Definition reconnect_frame : value := obj [("s", PInt 6); ("d", obj [])].




(** The payload of the same example with [channel_type] where line 361
    reads it, at the top of the payload. *)
Definition example_payload : dict :=
  list_to_map [("type", PInt 9); ("channel_type", PStr "GROUP");
               ("target_id", PStr "g1"); ("msg_timestamp", PInt 1000);
               ("author_id", PStr "2"); ("extra", obj [("type", PInt 1)]);
               ("content", PStr "hi"); ("msg_id", PStr "m1")].

Definition example_envelope : dict :=
  list_to_map [("s", PInt 0); ("sn", PInt 42); ("d", PDict example_payload)].

(** A private text message of the system account (author "1"). *)
Definition person_payload : dict :=
  list_to_map [("type", PInt 1); ("channel_type", PStr "PERSON");
               ("target_id", PStr "42"); ("msg_timestamp", PInt 1000);
               ("author_id", PStr "1"); ("extra", obj [("type", PInt 1)]);
               ("content", PStr "hello"); ("msg_id", PStr "m2")].

Definition person_envelope : dict :=
  list_to_map [("s", PInt 0); ("sn", PInt 7); ("d", PDict person_payload)].

(** A text message whose author is called "SYSTEM". *)
Definition system_named_payload : dict :=
  <["author_id" := PStr "SYSTEM"]> text_payload.

Definition system_named_envelope : dict :=
  list_to_map [("s", PInt 0); ("sn", PInt 9); ("d", PDict system_named_payload)].

(** A system notice on a private channel. *)
Definition notice_payload : dict :=
  list_to_map [("type", PInt 255); ("channel_type", PStr "PERSON");
               ("target_id", PStr "42"); ("msg_timestamp", PInt 1000);
               ("author_id", PStr "1");
               ("extra", obj [("type", PStr "guild_member_online")]);
               ("content", PStr "online"); ("msg_id", PStr "m3")].

Definition notice_envelope : dict :=
  list_to_map [("s", PInt 0); ("sn", PInt 10); ("d", PDict notice_payload)].

(** The text message as sent by the bot "42" itself. *)
Definition own_payload : dict := <["author_id" := PStr "42"]> text_payload.

Definition own_envelope : dict :=
  list_to_map [("s", PInt 0); ("sn", PInt 8); ("d", PDict own_payload)].

(** A RECONNECT and a HELLO whose payloads name the bot "42" as author. *)
Definition own_reconnect : dict :=
  list_to_map [("s", PInt 6); ("d", obj [("author_id", PStr "42")])].

Definition own_hello : dict :=
  list_to_map [("s", PInt 1);
               ("d", obj [("code", PInt 0); ("author_id", PStr "42")])].

(** The text message under a signal number that no branch handles. *)
Definition unknown_signal_envelope : dict :=
  list_to_map [("s", PInt 99); ("d", PDict text_payload)].

(** The text message under the signal RESUME_ACK. *)
Definition resume_ack_envelope : dict :=
  list_to_map [("s", PInt 7); ("d", PDict text_payload)].

(** An EVENT frame that comes in before the bot is bound, without an
    author. *)
Definition anonymous_payload : dict := delete "author_id" text_payload.

Definition anonymous_envelope : dict :=
  list_to_map [("s", PInt 0); ("sn", PInt 5); ("d", PDict anonymous_payload)].

(** ** A sample session and sample heartbeat rounds *)

(** A connection on which the bot "42" is bound, an event with [sn] 17
    comes in, and then the gateway asks for a reconnect while the gateway
    address cannot be fetched. *)
Definition lost_connection : Adapter.connection :=
  {| Adapter.opened := inr {| Adapter.ws_id := 1; Adapter.closed := false |};
     Adapter.frames := [inr hello_frame; inr (event_frame 17); inr reconnect_frame];
     Adapter.bot_info := inr ("42", "bot");
     Adapter.gateway := inl NetworkError |}.

(** The connection made after it, up to its HELLO. *)
Definition next_connection : Adapter.connection :=
  {| Adapter.opened := inr {| Adapter.ws_id := 2; Adapter.closed := false |};
     Adapter.frames := [inr hello_frame];
     Adapter.bot_info := inr ("42", "bot");
     Adapter.gateway := inr "wss://gateway/next" |}.

Definition fresh_adapter : Adapter.adapter :=
  {| Adapter.sn_map := ∅; Adapter.connections := ∅; Adapter.notified := [] |}.

Definition fresh_session : Adapter.session :=
  {| Adapter.bot := None; Adapter.url := "wss://gateway/first" |}.

Definition sample_forward_ws (cs : list Adapter.connection)
    : list Adapter.turn_end * Adapter.adapter * Adapter.session :=
  Adapter._forward_ws (lib := sample_library) spec_signals sample_types
    sample_HeartbeatMetaEvent sample_Event sample_repr sample_models "token" cs
    fresh_adapter fresh_session.

(** A round of the heartbeat task with an open socket for "42" and the
    sequence number 17, and a round with the socket closed. *)
Definition open_round : Adapter.heartbeat_env :=
  {| Adapter.hb_connections :=
       {["42" := {| Adapter.ws_id := 1; Adapter.closed := false |}]};
     Adapter.hb_store := {[Some "42" := PInt 17]};
     Adapter.hb_send := None |}.

Definition closed_round : Adapter.heartbeat_env :=
  {| Adapter.hb_connections :=
       {["42" := {| Adapter.ws_id := 1; Adapter.closed := true |}]};
     Adapter.hb_store := {[Some "42" := PInt 17]};
     Adapter.hb_send := None |}.

(** ** The REST side of the adapter *)

Module Api.

(** A response of the driver: [content] is a string, bytes or [None]. *)
Record Response := {
  status_code : Z;
  content : option string
}.

(** What the REST calls raise: the exceptions of [exn], the exceptions of
    exception.py that carry a response, and the exceptions of the driver,
    subclasses of [Exception], kept by their class name. *)
Inductive error : Type :=
  | Exn (e : exn)
  | UnauthorizedException (response : Response)
  | ApiNotAvailable
  | RateLimitException (response : Response)
  | ActionFailed (response : Response)
  | DriverError (class : string).

#[export] Instance error_ret : MRet (sum error) := fun _ x => inr x.
#[export] Instance error_bind : MBind (sum error) := fun _ _ f m =>
  match m with
  | inl e => inl e
  | inr x => f x
  end.

Definition fail {A} (e : error) : error + A := inl e.

(** An exception of the decoder's kind, met in a REST call. *)
Definition lift {A} (r : exn + A) : error + A :=
  match r with
  | inl e => inl (Exn e)
  | inr x => inr x
  end.

(** [bool(response.content)] *)
Definition has_content (response : Response) : bool :=
  match content response with
  | Some body => negb (String.eqb body "")
  | None => false
  end.

Section Request.

(** [isinstance(e, KaiheilaAdapterException)]: the class hierarchy is
    that of exception.py. *)
Variable adapter_exception : error -> bool.

(** [Cls(response)] for a class of exception.py, which is not under
    src/: the constructor reads the response, and may raise doing so.
    [init_raises e] is what building the exception [e] raises, if
    anything. *)
Variable init_raises : error -> option error.

(** [raise Cls(response)] *)
Definition raise_built {A} (e : error) : error + A :=
  match init_raises e with
  | Some e' => inl e'
  | None => inl e
  end.

(** Lines 76 to 87: what [request] makes of the response of the driver. *)
Definition check_status (response : Response) : error + Response :=
  let status := status_code response in
  if ((200 <=? status)%Z && (status <? 300)%Z)%bool then
    if negb (has_content response) then fail (Exn (ValueError "Empty response"))
    else inr response
  else if (status =? 403)%Z then raise_built (UnauthorizedException response)
  else if ((status =? 404)%Z || (status =? 405)%Z)%bool then fail ApiNotAvailable
  else if (status =? 429)%Z then raise_built (RateLimitException response)
  else raise_built (ActionFailed response).

(** [request(setup)], given what [super().request(setup)] does. *)
Definition request (sent : error + Response) : error + Response :=
  match sent ≫= check_status with
  | inr response => inr response
  | inl e => if adapter_exception e then inl e else inl (Exn NetworkError)
  end.

End Request.

(** *** The name of an API *)

Definition is_upper (c : ascii) : bool :=
  let n := nat_of_ascii c in (Nat.leb 65 n && Nat.leb n 90)%bool.

(** [re.findall(r'[A-Z]', api)] *)
Fixpoint findall_upper (api : string) : list ascii :=
  match api with
  | EmptyString => []
  | String c api' =>
      if is_upper c then c :: findall_upper api' else findall_upper api'
  end.

(** [s.replace(old, new)] for a pattern [old] of one character. *)
Fixpoint replace (old : ascii) (new : string) (s : string) : string :=
  match s with
  | EmptyString => EmptyString
  | String c s' =>
      if Ascii.eqb c old then new ++ replace old new s'
      else String c (replace old new s')
  end.

(** [s[n:]] *)
Fixpoint slice_from (n : nat) (s : string) : string :=
  match n, s with
  | S n', String _ s' => slice_from n' s'
  | _, _ => s
  end.

(** [s.lstrip(c)] and [s.rstrip(c)] for one character [c]. *)
Fixpoint lstrip (c : ascii) (s : string) : string :=
  match s with
  | String a s' => if Ascii.eqb a c then lstrip c s' else s
  | EmptyString => EmptyString
  end.

Fixpoint rstrip (c : ascii) (s : string) : string :=
  match s with
  | EmptyString => EmptyString
  | String a s' =>
      match rstrip c s' with
      | EmptyString => if Ascii.eqb a c then EmptyString else String a EmptyString
      | rest => String a rest
      end
  end.

(** [s.strip(c)] *)
Definition strip (c : ascii) (s : string) : string := rstrip c (lstrip c s).

(** Lines 99 to 102: each capital found is replaced, wherever it stands,
    by a dash and its small letter. *)
Definition dash_capitals (api : string) : string :=
  fold_left (fun api m => replace m (String "-" (String (Py.lower_ascii m) "")) api)
            (findall_upper api) api.

(** Lines 99 to 109: the path that [_call_api] makes of the name of an
    API. *)
Definition api_path (api : string) : string :=
  let api := dash_capitals api in
  let api := replace "_" "/" api in
  let api :=
    if String.prefix "/api/v3/" api then slice_from (String.length "/api/v3/") api
    else if String.prefix "api/v3" api then slice_from (String.length "api/v3") api
    else api in
  strip "/" api.

(** *** Calls *)

Record Request := {
  method : value;
  url : string;
  headers : value;
  params : option dict;
  data : option dict;
  files : option value;
  timeout : value
}.

Definition api_root : string := "https://www.kaiheila.cn/api/v3/".

Section Calls.

(** [get_api_method] and [get_api_restype] of api/handle.py,
    [_handle_api_result] of utils.py and [parse_obj_as] of pydantic; a
    result type is kept as the parser it stands for. *)
Variable get_api_method : string -> error + value.
Variable get_api_restype : string -> option (value -> error + value).
Variable _handle_api_result : Response -> error + value.
Variable adapter_exception : error -> bool.
Variable init_raises : error -> option error.
(** [self.config.api_timeout] *)
Variable api_timeout : value.
(** [Request(method, url, headers=..., params=..., data=..., files=...,
    timeout=...)] of the driver, which is not under src/: the constructor
    may raise for arguments it cannot take, a query it cannot encode
    among them.  [Request_raises r] is what it raises for the arguments
    [r], if anything. *)
Variable Request_raises : Request -> option error.
(** What the driver answers to a request. *)
Variable driver : Request -> error + Response.

(** Lines 119 to 153 of [_do_call_api]: the request, as the arguments
    that [Request] has accepted.  [headers] is the dict held by [data]
    under "headers" when there is one, so the authorization written to it
    shows in [data] too; [query] and [body] are [data] itself. *)
Definition make_request (api : string) (data : option dict)
    (token : option string) : error + Request :=
  let data : dict := default ∅ data in
  method ← (if negb (Py.truthy (Py.get data "method")) then get_api_method api
            else inr (Py.get data "method"));
  let headers := default (PDict ∅) (data !! "headers") in
  let '(files, data) :=
    match data !! "files", data !! "file" with
    | Some f, _ => (Some f, delete "files" data)
    | None, Some f => (Some (PDict (<["file" := f]> ∅)), delete "file" data)
    | None, None => (None, data)
    end in
  '(headers, data) ←
    match token with
    | Some token =>
        headers' ← lift (Py.setitem headers "Authorization" (PStr ("Bot " ++ token)));
        mret (headers',
              match data !! "headers" with
              | Some _ => <["headers" := headers']> data
              | None => data
              end)
    | None => mret (headers, data)
    end;
  let query := if Py.eq_str method "GET" then Some data else None in
  let body :=
    if Py.eq_str method "GET" then None
    else if Py.eq_str method "POST" then Some data else None in
  let request :=
    {| method := method; url := api_root ++ api; headers := headers;
       params := query; data := body; files := files;
       timeout := api_timeout |} in
  match Request_raises request with
  | Some e => fail e
  | None => mret request
  end.

(** [_do_call_api(api, data, token)] *)
Definition _do_call_api (api : string) (data : option dict)
    (token : option string) : error + value :=
  request ← make_request api data token;
  let result_type := get_api_restype api in
  resp ← Api.request adapter_exception init_raises (driver request);
  result ← _handle_api_result resp;
  match result_type with
  | Some parse => parse result
  | None => inr PNone
  end.

(** [_call_api(bot, api, **data)]; [forward] is
    [isinstance(self.driver, ForwardDriver)]. *)
Definition _call_api (forward : bool) (bot_token : string) (api : string)
    (data : dict) : error + value :=
  if forward then
    if negb (Py.truthy (PStr api_root)) then fail ApiNotAvailable
    else _do_call_api (api_path api) (Some data) (Some bot_token)
  else fail ApiNotAvailable.

End Calls.

(** *** Starting the sessions *)

(** [start_forward], given what [_get_gateway] answers for each token and
    whether [URL(url)] accepts the address: the tasks appended to
    [self.tasks], each with its address and token, and the tokens whose
    failure is logged. *)
Fixpoint start_forward (get_gateway : string -> error + string)
    (valid_url : string -> bool) (bots : list string)
    (tasks : list (string * string)) (logged : list string)
    : list (string * string) * list string :=
  match bots with
  | [] => (tasks, logged)
  | bot_token :: bots' =>
      match get_gateway bot_token with
      | inr url =>
          if valid_url url then
            start_forward get_gateway valid_url bots'
              (tasks ++ [(url, bot_token)]) logged
          else start_forward get_gateway valid_url bots' tasks (logged ++ [bot_token])
      | inl _ =>
          start_forward get_gateway valid_url bots' tasks (logged ++ [bot_token])
      end
  end.

End Api.

(** ** Auxiliary definitions for the further properties *)

(** The keys that [normalize] may write to. *)
Definition normalize_writes : list string :=
  ["self_id"; "group_id"; "time"; "user_id"; "post_type"; "notice_type";
   "message"; "sub_type"; "message_type"; "extra"; "event"; "message_id"].

(** The payload after lines 346 to 349. *)
Definition identified (data : dict) (self_id : option string) : dict :=
  <["user_id" := if Py.eq_str (Py.get data "author_id") "1" then PStr "SYSTEM"
                 else Py.get data "author_id"]>
    (<["time" := Py.get data "msg_timestamp"]>
       (<["group_id" := Py.get data "target_id"]>
          (<["self_id" := Py.of_optstr self_id]> data))).

(** The members of [EventTypes] whose value is the [type] of [extra]. *)
Definition matching_members (types : EventTable) (extra : dict) : EventTable :=
  filter (fun i => Py.eq_int (Py.get extra "type") i.2 = true) types.

(** What [normalize] makes of a system notice and of a message. *)
Definition notice_fields (data : dict) (self_id : option string)
    (extra : dict) (message : value) : dict :=
  <["message_id" := Py.get data "msg_id"]>
    (<["message" := message]>
       (<["notice_type" := Py.get extra "type"]>
          (<["post_type" := PStr "notice"]> (identified data self_id)))).

Definition message_fields {lib : Py.Library} (data : dict)
    (self_id : option string) (extra : dict) (sub_type channel_type : string)
    : dict :=
  let enriched := PDict (<["content" := Py.get data "content"]> extra) in
  <["message_id" := Py.get data "msg_id"]>
    (<["event" := enriched]>
       (<["extra" := enriched]>
          (<["message_type" := PStr (if String.eqb (Py.lower channel_type) "person"
                                     then "private" else Py.lower channel_type)]>
             (<["message_type" := PStr (Py.lower channel_type)]>
                (<["sub_type" := PStr sub_type]>
                   (<["post_type" := PStr "message"]> (identified data self_id))))))).

(** A part of an event name: nothing for an empty string, and a dot
    with the string otherwise (lines 369 and 371). *)
Definition dotted (part : string) : string :=
  if String.eqb part "" then "" else "." ++ part.

(** The capitals of a given list replaced, in one pass, by a dash and
    their small letter. *)
Fixpoint kebab_of (capitals : list ascii) (api : string) : string :=
  match api with
  | EmptyString => EmptyString
  | String c api' =>
      if (Api.is_upper c && existsb (Ascii.eqb c) capitals)%bool
      then String "-" (String (Py.lower_ascii c) (kebab_of capitals api'))
      else String c (kebab_of capitals api')
  end.

(** Every capital replaced, in one pass, by a dash and its small
    letter. *)
Fixpoint kebab (api : string) : string :=
  match api with
  | EmptyString => EmptyString
  | String c api' =>
      if Api.is_upper c then String "-" (String (Py.lower_ascii c) (kebab api'))
      else String c (kebab api')
  end.

(** A relative path in the form the REST API names its calls: no
    capital, no underscore, no slash at either end. *)
Definition path_like (path : string) : Prop :=
  Forall (fun c => Api.is_upper c = false /\ c ≠ "_"%char)
    (list_ascii_of_string path)
  /\ head (list_ascii_of_string path) ≠ Some "/"%char
  /\ last (list_ascii_of_string path) ≠ Some "/"%char.


(** What a request carries as its query or as its body. *)
Definition payload (request : Api.Request) : option dict :=
  match Api.params request with
  | Some query => Some query
  | None => Api.data request
  end.

(** What [start_forward] does with a token: the task it starts, if any. *)
Definition started (get_gateway : string -> Api.error + string)
    (valid_url : string -> bool) (bot_token : string) : option (string * string) :=
  match get_gateway bot_token with
  | inr url => if valid_url url then Some (url, bot_token) else None
  | inl _ => None
  end.

(** ** A sample REST configuration, for the examples *)

Definition sample_adapter_exception (e : Api.error) : bool :=
  match e with
  | Api.Exn ReconnectError | Api.Exn (TokenError _) | Api.Exn NetworkError => true
  | Api.Exn _ => false
  | Api.DriverError _ => false
  | _ => true
  end.

Definition sample_get_api_method (api : string) : Api.error + value :=
  inr (PStr (if String.prefix "gateway" api then "GET"
             else if String.prefix "user" api then "GET" else "POST")).

(** The constructors of the examples: an exception that carries a
    response raises [ValueError] where the body is not a JSON object, and
    [Request] raises [TypeError] for a query that holds a dict or a
    list. *)
Definition sample_init_raises (e : Api.error) : option Api.error :=
  match e with
  | Api.UnauthorizedException response
  | Api.RateLimitException response
  | Api.ActionFailed response =>
      match Api.content response with
      | Some body =>
          if (String.eqb body "" || String.prefix "{" body)%bool then None
          else Some (Api.Exn (ValueError "Expecting value"))
      | None => None
      end
  | _ => None
  end.

Definition sample_Request_raises (request : Api.Request) : option Api.error :=
  match Api.params request with
  | Some query =>
      if existsb (fun item => match item.2 with
                              | PDict _ | PList _ => true
                              | _ => false
                              end) (map_to_list query)
      then Some (Api.Exn TypeError) else None
  | None => None
  end.

Definition sample_make_request :=
  Api.make_request sample_get_api_method (PInt 30) sample_Request_raises.

(** A driver that answers every request with an empty JSON object, read
    by [_handle_api_result] as [None], and an API without result type. *)
Definition sample_driver (request : Api.Request) : Api.error + Api.Response :=
  inr {| Api.status_code := 200; Api.content := Some "{}" |}.

Definition sample_call_api :=
  Api._call_api sample_get_api_method (fun _ => None) (fun _ => inr PNone)
    sample_adapter_exception sample_init_raises (PInt 30) sample_Request_raises
    sample_driver.

Definition sample_do_call_api :=
  Api._do_call_api sample_get_api_method (fun _ => None) (fun _ => inr PNone)
    sample_adapter_exception sample_init_raises (PInt 30) sample_Request_raises
    sample_driver.

(** A call that uploads a file, with headers of its own and its method
    named, and the request that [_do_call_api] makes of it for the token
    "token". *)
Definition upload_data : dict :=
  list_to_map [("file", PStr "bytes"); ("type", PInt 2); ("method", PStr "POST");
               ("headers", obj [("Accept", PStr "application/json")])].

Definition upload_headers : value :=
  obj [("Accept", PStr "application/json"); ("Authorization", PStr "Bot token")].

Definition upload_sent : dict :=
  list_to_map [("type", PInt 2); ("method", PStr "POST"); ("headers", upload_headers)].

Definition upload_request : Api.Request :=
  {| Api.method := PStr "POST";
     Api.url := "https://www.kaiheila.cn/api/v3/asset/create";
     Api.headers := upload_headers;
     Api.params := None;
     Api.data := Some upload_sent;
     Api.files := Some (obj [("file", PStr "bytes")]);
     Api.timeout := PInt 30 |}.

(** A call whose headers are not a dict. *)
Definition malformed_data : dict :=
  list_to_map [("method", PStr "GET"); ("headers", PStr "Accept: */*")].

(** ** Further sample sessions *)

(** A model of an extension, registered at "message.text" as
    [sample_TextEvent] is. *)
Definition sample_CustomTextEvent : Model :=
  {| class_name := "CustomTextEvent"; bases := ["MessageEvent"; "Event"; "OriginEvent"];
     __event__ := "message.text"; validate := has_post_type "message" |}.

(** A round of the heartbeat task in which [send] raises. *)
Definition failing_round : Adapter.heartbeat_env :=
  {| Adapter.hb_connections := Adapter.hb_connections open_round;
     Adapter.hb_store := Adapter.hb_store open_round;
     Adapter.hb_send := Some NetworkError |}.

(** The bot "42" bound, its socket in the registry. *)
Definition sample_bot : Adapter.Bot :=
  {| Adapter.self_id := "42"; Adapter.name := "bot"; Adapter.token := "token" |}.

Definition sample_socket : Adapter.WebSocket :=
  {| Adapter.ws_id := 1; Adapter.closed := false |}.

Definition bound_adapter : Adapter.adapter :=
  {| Adapter.sn_map := {[Some "42" := PInt 17]};
     Adapter.connections := {["42" := sample_socket]};
     Adapter.notified := [Adapter.BotConnect sample_bot] |}.

Definition bound_session : Adapter.session :=
  {| Adapter.bot := Some sample_bot; Adapter.url := "wss://gateway/first" |}.

(** A connection that the gateway refuses for its token. *)
Definition expired_connection : Adapter.connection :=
  {| Adapter.opened := inr sample_socket;
     Adapter.frames := [inr (obj [("s", PInt 1); ("d", obj [("code", PInt 40101)])])];
     Adapter.bot_info := inr ("42", "bot");
     Adapter.gateway := inr "wss://gateway/next" |}.

(** A connection on which the bot is bound and the gateway then asks for
    a reconnect, the gateway address being at hand. *)
Definition reconnecting_connection : Adapter.connection :=
  {| Adapter.opened := inr sample_socket;
     Adapter.frames := [inr hello_frame; inr reconnect_frame];
     Adapter.bot_info := inr ("42", "bot");
     Adapter.gateway := inr "wss://gateway/next" |}.

(** * Properties *)

Import Adapter.

(** ** Python values *)

Lemma eq_int_inj v n m : Py.eq_int v n = true -> Py.eq_int v m = true -> n = m.
Proof.
  unfold Py.eq_int. destruct (Py.as_int v) as [k|]; [|done].
  intros ?%Z.eqb_eq ?%Z.eqb_eq. congruence.
Qed.

Lemma eq_int_ne v n m : Py.eq_int v n = true -> n ≠ m -> Py.eq_int v m = false.
Proof.
  intros Hn Hne. destruct (Py.eq_int v m) eqn:Hm; [|done].
  destruct Hne. by eapply eq_int_inj.
Qed.

Lemma get_insert_eq (d : dict) k v : Py.get (<[k := v]> d) k = v.
Proof. unfold Py.get. by rewrite lookup_insert_eq. Qed.

Lemma get_insert_ne (d : dict) k k' v :
  k ≠ k' -> Py.get (<[k := v]> d) k' = Py.get d k'.
Proof. intros. unfold Py.get. by rewrite lookup_insert_ne. Qed.

Lemma split_cons_sep sep s :
  Py.split sep (String sep s) = "" :: Py.split sep s.
Proof. simpl. by rewrite Ascii.eqb_refl. Qed.

(** ** The HELLO branch *)

Section Hello.

Context {lib : Py.Library}.
Variable SignalTypes : SignalTable.
Variable EventTypes : EventTable.
Variable HeartbeatMetaEvent Event : Model.
Variable repr : value -> string.
Variable event_models : StringTrie.t.

Abbreviation json_to_event :=
  (json_to_event SignalTypes EventTypes HeartbeatMetaEvent Event repr event_models).

Lemma connect_fields_valid data :
  validate LifecycleMetaEvent (connect_fields data) = true.
Proof.
  unfold connect_fields, Py.get. simpl. unfold Py.get.
  by simplify_map_eq.
Qed.

Lemma hello_with_code (json_data data : dict) (code : value) :
  json_data !! "d" = Some (PDict data) ->
  data !! "code" = Some code ->
  hello json_data =
    if Py.eq_int code 0 then
      Done (Return (Some {| ev_model := LifecycleMetaEvent;
                            ev_fields := connect_fields data |}))
    else if Py.eq_int code 40103 then Done (Raise ReconnectError)
    else if Py.eq_int code 40101 then Done (Raise (TokenError "无效的 token"))
    else if Py.eq_int code 40102 then Done (Raise (TokenError "token 验证失败"))
    else Continue.
Proof.
  intros Hd Hcode.
  unfold hello, Py.item, Py.getitem, Py.item. rewrite Hd. simpl.
  rewrite Hcode. destruct (Py.eq_int code 0); [|done].
  unfold parse_obj. fold (connect_fields data).
  by rewrite connect_fields_valid.
Qed.

(** C1.  A HELLO envelope is decided by the code of its payload: code 0
    returns the lifecycle meta event, with [post_type] "meta_event",
    [sub_type] "connect" and [meta_event_type] "lifecycle"; code 40103
    raises [ReconnectError]; codes 40101 and 40102 both raise
    [TokenError].  The sequence store is left as it is. *)
Theorem hello_by_code (store : sn_store) (json_data data : dict)
    (signal code : value) (self_id : option string) :
  json_data !! "s" = Some signal ->
  Py.eq_int signal (HELLO SignalTypes) = true ->
  json_data !! "d" = Some (PDict data) ->
  data !! "code" = Some code ->
  (Py.eq_int code 0 = true ->
     exists ev,
       json_to_event store (PDict json_data) self_id = (Return (Some ev), store)
       /\ ev_model ev = LifecycleMetaEvent
       /\ ev_fields ev = connect_fields data
       /\ field ev "post_type" = Some (PStr "meta_event")
       /\ field ev "sub_type" = Some (PStr "connect")
       /\ field ev "meta_event_type" = Some (PStr "lifecycle"))
  /\ (Py.eq_int code 40103 = true ->
        json_to_event store (PDict json_data) self_id = (Raise ReconnectError, store))
  /\ (Py.eq_int code 40101 = true ->
        exists msg,
          json_to_event store (PDict json_data) self_id = (Raise (TokenError msg), store))
  /\ (Py.eq_int code 40102 = true ->
        exists msg,
          json_to_event store (PDict json_data) self_id = (Raise (TokenError msg), store)).
Proof.
  intros Hs Hsig Hd Hcode.
  assert (Hdisp : dispatch SignalTypes HeartbeatMetaEvent store json_data self_id
                  = (hello json_data, store)).
  { unfold dispatch, Py.item. by rewrite Hs, Hsig. }
  unfold Adapter.json_to_event.
  rewrite Hdisp, (hello_with_code _ _ _ Hd Hcode).
  split_and!.
  - intros ->. eexists. split; [done|].
    unfold field, connect_fields. simpl. by simplify_map_eq.
  - intros H. rewrite (eq_int_ne _ _ 0 H), H by done. done.
  - intros H. rewrite (eq_int_ne _ _ 0 H), (eq_int_ne _ _ 40103 H), H by done.
    by eexists.
  - intros H.
    rewrite (eq_int_ne _ _ 0 H), (eq_int_ne _ _ 40103 H), (eq_int_ne _ _ 40101 H), H by done.
    by eexists.
Qed.

End Hello.

(** ** The registry of event models *)

Section Registry.

Variable event_models : StringTrie.t.

Lemma elem_of_prefixes key path model :
  (path, model) ∈ StringTrie.prefixes event_models key
  <-> path `prefix_of` StringTrie.path_from_key key
      /\ event_models !! path = Some model.
Proof.
  unfold StringTrie.prefixes. rewrite list_elem_of_omap. split.
  - intros (pos & _ & Hpos).
    destruct (event_models !! take pos _) as [v|] eqn:Hv; simplify_eq/=.
    split; [apply prefix_take | done].
  - intros [[rest Hpre] Hlook]. exists (length path). split.
    + apply elem_of_seq. rewrite Hpre, length_app. lia.
    + rewrite Hpre, take_app_length. by rewrite Hlook.
Qed.

Lemma prefixes_sorted key :
  StronglySorted (fun a b => more_specific b a)
    (StringTrie.prefixes event_models key).
Proof.
  unfold StringTrie.prefixes.
  generalize (StringTrie.path_from_key key). intros path.
  assert (Hgen : forall n k, k + n <= S (length path) ->
    StronglySorted (fun a b => more_specific b a)
      (omap (fun pos => (fun v => (take pos path, v))
                          <$> event_models !! take pos path) (seq k n))
    /\ Forall (fun a => k <= length a.1)
         (omap (fun pos => (fun v => (take pos path, v))
                          <$> event_models !! take pos path) (seq k n))).
  { induction n as [|n IH]; intros k Hk; simpl.
    { split; constructor. }
    destruct (IH (S k)) as [Hs Hf]; [lia|].
    destruct (event_models !! take k path) as [v|]; simpl.
    - split.
      + constructor; [done|]. eapply Forall_impl; [exact Hf|].
        intros a Ha. unfold more_specific. simpl in *.
        rewrite length_take. lia.
      + constructor; [simpl; rewrite length_take; lia|].
        eapply Forall_impl; [exact Hf|]. intros a Ha. simpl in *. lia.
    - split; [done|]. eapply Forall_impl; [exact Hf|].
      intros a Ha. simpl in *. lia. }
  apply Hgen. lia.
Qed.

Lemma StronglySorted_reverse {A} (R : relation A) (l : list A) :
  StronglySorted R l -> StronglySorted (flip R) (reverse l).
Proof.
  induction 1 as [|x l Hl IH Hx]; [constructor|].
  rewrite reverse_cons. apply StronglySorted_app_2.
  - intros y z Hy Hz. apply list_elem_of_singleton in Hz as ->.
    rewrite elem_of_reverse in Hy. unfold flip.
    rewrite Forall_forall in Hx. by apply Hx.
  - done.
  - repeat constructor.
Qed.

Lemma get_event_model_candidates event_name :
  get_event_model event_models event_name = (candidates event_models event_name).*2.
Proof. unfold get_event_model, candidates. by rewrite fmap_reverse. Qed.

Lemma elem_of_candidates event_name path model :
  (path, model) ∈ candidates event_models event_name
  <-> path `prefix_of` StringTrie.path_from_key ("." ++ event_name)
      /\ event_models !! path = Some model.
Proof. unfold candidates. rewrite elem_of_reverse. apply elem_of_prefixes. Qed.

Lemma candidates_sorted event_name :
  StronglySorted more_specific (candidates event_models event_name).
Proof.
  unfold candidates.
  apply (StronglySorted_reverse (fun a b => more_specific b a)), prefixes_sorted.
Qed.

Lemma elem_of_get_event_model event_name model :
  model ∈ get_event_model event_models event_name
  <-> exists path, path `prefix_of` StringTrie.path_from_key ("." ++ event_name)
                   /\ event_models !! path = Some model.
Proof.
  rewrite get_event_model_candidates, list_elem_of_fmap. split.
  - intros ([path m] & -> & Hin). exists path. by apply elem_of_candidates.
  - intros (path & Hpath). exists (path, model). split; [done|].
    by apply elem_of_candidates.
Qed.

Lemma path_from_key_dot name :
  StringTrie.path_from_key ("." ++ name) = "" :: components name.
Proof. unfold StringTrie.path_from_key, StringTrie.separator, components. apply split_cons_sep. Qed.

Lemma get_event_model_nil event_name :
  (forall path, path `prefix_of` StringTrie.path_from_key ("." ++ event_name) ->
                event_models !! path = None) ->
  get_event_model event_models event_name = [].
Proof.
  intros Hnone. destruct (get_event_model _ _) as [|m ms] eqn:Heq; [done|].
  assert (Hin : m ∈ get_event_model event_models event_name)
    by (rewrite Heq; left).
  apply elem_of_get_event_model in Hin as (path & Hpre & Hlook).
  rewrite Hnone in Hlook; done.
Qed.

End Registry.

Lemma add_custom_model_registered event_models model event_models' :
  add_custom_model event_models model = inr event_models' ->
  registered event_models' (__event__ model) model.
Proof.
  unfold add_custom_model, registered, StringTrie.set.
  destruct (negb _); [done|]. intros [= <-]. apply lookup_insert_eq.
Qed.

(** ** Signals *)

Lemma distinct_signals_ne T :
  distinct_signals T ->
  HELLO T ≠ EVENT T /\ PONG T ≠ EVENT T
  /\ HELLO T ≠ RECONNECT T /\ PONG T ≠ RECONNECT T /\ EVENT T ≠ RECONNECT T
  /\ HELLO T ≠ RESUME_ACK T /\ PONG T ≠ RESUME_ACK T /\ EVENT T ≠ RESUME_ACK T
  /\ RECONNECT T ≠ RESUME_ACK T.
Proof.
  unfold distinct_signals. rewrite !NoDup_cons, !not_elem_of_cons.
  intros (? & ? & ? & ? & ?). intuition congruence.
Qed.

(** ** Decoding a payload *)

(** Closes an equation between closed terms by evaluating both sides. *)
Ltac compute_refl := vm_compute; reflexivity.

Ltac compute_eq :=
  lazymatch goal with
  | |- ?l = ?r => vm_cast_no_check (@eq_refl _ r)
  | |- _ => vm_compute; reflexivity
  end.

Ltac unfold_exn :=
  unfold mbind, exn_bind, mret, exn_ret, raise in *.

Section Decoder.

Context {lib : Py.Library}.
Variable SignalTypes : SignalTable.
Variable EventTypes : EventTable.
Variable HeartbeatMetaEvent Event : Model.
Variable repr : value -> string.
Variable event_models : StringTrie.t.



Lemma parse_models_typed models data json_data :
  Exists (fun c => validate c data = true) models ->
  exists model,
    model ∈ models /\ validate model data = true
    /\ parse_models Event models data json_data
       = inr {| ev_model := model; ev_fields := data |}.
Proof.
  induction 1 as [c models Hc|c models _ IH]; simpl; unfold parse_obj at 1.
  - rewrite Hc. exists c. split; [left|done].
  - destruct (validate c data) eqn:Hc.
    + exists c. split; [left|done].
    + destruct IH as (model & ? & ? & ?). exists model. split; [by right|done].
Qed.

(** What [normalize] leaves in the payload. *)
Lemma normalize_fields data self_id data' :
  normalize EventTypes data self_id = inr data' ->
  data' !! "self_id" = Some (Py.of_optstr self_id)
  /\ data' !! "user_id"
     = Some (if Py.eq_str (Py.get data "author_id") "1" then PStr "SYSTEM"
             else Py.get data "author_id")
  /\ data' !! "group_id" = Some (Py.get data "target_id")
  /\ data' !! "time" = Some (Py.get data "msg_timestamp")
  /\ data' !! "message_id" = Some (Py.get data "msg_id")
  /\ exists ty sys,
       data !! "type" = Some ty /\ enum_attr EventTypes "sys" = inr sys
       /\ if Py.eq_int ty sys then
            data' !! "post_type" = Some (PStr "notice")
            /\ data' !! "message_type" = data !! "message_type"
          else
            data' !! "post_type" = Some (PStr "message")
            /\ exists channel_type,
                 data !! "channel_type" = Some (PStr channel_type)
                 /\ data' !! "message_type"
                    = Some (PStr (if String.eqb (Py.lower channel_type) "person"
                                  then "private" else Py.lower channel_type)).
Proof.
  unfold normalize, Py.item, Py.attr_get, Py.attr_lower, Py.setitem.
  rewrite !get_insert_ne by done. intros H. unfold_exn.
  rewrite !lookup_insert_ne in H by done.
  destruct (data !! "type") as [ty|] eqn:Ety; [|done].
  destruct (enum_attr EventTypes "sys") as [|sys] eqn:Esys; [done|].
  destruct (Py.eq_int ty sys) eqn:Esy.
  - destruct (Py.get data "extra") as [| | | | |extra|] eqn:Eextra; try done.
    rewrite !lookup_insert_ne in H by done.
    destruct (data !! "content") as [content|] eqn:Econtent; [|done].
    destruct (Py.format_template content) as [|message]; [done|].
    rewrite !get_insert_ne in H by done. injection H as <-.
    split_and!; try by simplify_map_eq.
    + simplify_map_eq. by destruct (Py.eq_str _ _).
    + exists ty, sys. rewrite Esy. split_and!; by simplify_map_eq.
  - destruct (sub_type_names EventTypes (Py.get data "extra"))
      as [|names] eqn:Enames; [done|].
    destruct names as [|name rest]; [done|]. cbv beta iota in H.
    rewrite !get_insert_ne in H by done.
    destruct (Py.get data "channel_type") as [| | |channel_type| | |] eqn:Ech; try done.
    cbv beta iota in H. rewrite get_insert_eq in H.
    rewrite !lookup_insert_ne, !get_insert_ne in H by done.
    destruct (data !! "extra") as [extra|] eqn:Eextra; [|done].
    destruct extra as [| | | | |extra|]; try done.
    cbv beta iota in H. rewrite lookup_insert_eq in H.
    cbv beta iota in H. rewrite !get_insert_ne in H by done.
    injection H as <-.
    assert (Hch : data !! "channel_type" = Some (PStr channel_type)).
    { unfold Py.get in Ech. by destruct (data !! "channel_type"); simplify_eq/=. }
    split_and!; try by simplify_map_eq.
    + simplify_map_eq. by destruct (Py.eq_str _ _).
    + exists ty, sys. rewrite Esy. split_and!; try by simplify_map_eq.
      exists channel_type. split; [done|].
      simplify_map_eq. simpl. by destruct (String.eqb _ _).
Qed.

Abbreviation json_to_event :=
  (json_to_event SignalTypes EventTypes HeartbeatMetaEvent Event repr event_models).
Abbreviation decode_payload :=
  (decode_payload EventTypes Event repr event_models).
Abbreviation decode := (decode EventTypes Event repr event_models).
Abbreviation dispatch := (dispatch SignalTypes HeartbeatMetaEvent).

Lemma event_name_total data self_id data' :
  normalize EventTypes data self_id = inr data' ->
  exists name, event_name repr data' = inr name.
Proof.
  intros (_ & _ & _ & _ & _ & ty & sys & _ & _ & Hpost)%normalize_fields.
  unfold event_name, Py.item. unfold_exn.
  destruct (Py.eq_int ty sys); destruct Hpost as [-> _]; by eexists.
Qed.

Lemma json_to_event_dispatch store json_data self_id :
  json_to_event store (PDict json_data) self_id
  = match dispatch store json_data self_id with
    | (Done r, store') => (r, store')
    | (Continue, store') => (decode_payload json_data self_id, store')
    end.
Proof. done. Qed.

Lemma dispatch_event store json_data signal sn self_id :
  distinct_signals SignalTypes ->
  json_data !! "s" = Some signal ->
  Py.eq_int signal (EVENT SignalTypes) = true ->
  json_data !! "sn" = Some sn ->
  dispatch store json_data self_id = (Continue, ResultStore.set_sn store self_id sn).
Proof.
  intros (? & ? & _)%distinct_signals_ne Hs Hsig Hsn.
  unfold Adapter.dispatch, Py.item. rewrite Hs, Hsn, Hsig.
  by rewrite !(eq_int_ne _ _ _ Hsig) by done.
Qed.

Lemma dispatch_resume_ack store json_data signal self_id :
  distinct_signals SignalTypes ->
  json_data !! "s" = Some signal ->
  Py.eq_int signal (RESUME_ACK SignalTypes) = true ->
  dispatch store json_data self_id = (Done (Return None), store).
Proof.
  intros (_ & _ & _ & _ & _ & ? & ? & ? & ?)%distinct_signals_ne Hs Hsig.
  unfold Adapter.dispatch, Py.item. rewrite Hs, Hsig.
  by rewrite !(eq_int_ne _ _ _ Hsig) by done.
Qed.

Lemma dispatch_reconnect store json_data signal self_id :
  distinct_signals SignalTypes ->
  json_data !! "s" = Some signal ->
  Py.eq_int signal (RECONNECT SignalTypes) = true ->
  dispatch store json_data self_id = (Done (Raise ReconnectError), store).
Proof.
  intros (_ & _ & ? & ? & ? & _)%distinct_signals_ne Hs Hsig.
  unfold Adapter.dispatch, Py.item. rewrite Hs, Hsig.
  by rewrite !(eq_int_ne _ _ _ Hsig) by done.
Qed.

Lemma dispatch_unhandled store json_data signal self_id :
  json_data !! "s" = Some signal ->
  Py.eq_int signal (HELLO SignalTypes) = false ->
  Py.eq_int signal (PONG SignalTypes) = false ->
  Py.eq_int signal (EVENT SignalTypes) = false ->
  Py.eq_int signal (RECONNECT SignalTypes) = false ->
  Py.eq_int signal (RESUME_ACK SignalTypes) = false ->
  dispatch store json_data self_id = (Continue, store).
Proof.
  intros Hs H1 H2 H3 H4 H5. unfold Adapter.dispatch, Py.item.
  by rewrite Hs, H1, H2, H3, H4, H5.
Qed.

Lemma decode_payload_own json_data data self_id :
  json_data !! "d" = Some (PDict data) ->
  Py.eq_optstr (Py.get data "author_id") self_id = true ->
  decode_payload json_data self_id = Return None.
Proof. intros Hd Hown. unfold Adapter.decode_payload. by rewrite Hd, Hown. Qed.

Lemma decode_payload_other json_data data self_id :
  json_data !! "d" = Some (PDict data) ->
  Py.eq_optstr (Py.get data "author_id") self_id = false ->
  decode_payload json_data self_id
  = dropped_on_failure (decode json_data data self_id).
Proof. intros Hd Hown. unfold Adapter.decode_payload. by rewrite Hd, Hown. Qed.

Lemma decode_steps json_data data self_id data' name :
  normalize EventTypes data self_id = inr data' ->
  event_name repr data' = inr name ->
  decode json_data data self_id
  = parse_models Event (get_event_model event_models name) data'
      (<["d" := PDict data']> json_data).
Proof. intros Hn He. unfold Adapter.decode. unfold_exn. by rewrite Hn, He. Qed.

Lemma decode_typed json_data data self_id data' model :
  normalize EventTypes data self_id = inr data' ->
  typed_candidate repr event_models data' model ->
  exists model',
    typed_candidate repr event_models data' model'
    /\ decode json_data data self_id
       = inr {| ev_model := model'; ev_fields := data' |}.
Proof.
  intros Hn (name & He & Hin & Hok).
  rewrite (decode_steps _ _ _ _ _ Hn He).
  destruct (parse_models_typed (get_event_model event_models name) data'
              (<["d" := PDict data']> json_data)) as (model' & ? & ? & ->).
  { apply Exists_exists. by exists model. }
  exists model'. split; [by exists name|done].
Qed.

End Decoder.

(** ** Rewriting the payload *)

Section Normalize.

Context {lib : Py.Library}.
Variable EventTypes : EventTable.

Lemma sub_type_names_object members extra :
  sub_type_names members (PDict extra)
  = inr ((fun i => Py.lower i.1) <$> matching_members members extra).
Proof.
  unfold matching_members. induction members as [|i members IH]; [done|].
  rewrite filter_cons. cbn [sub_type_names]. unfold Py.attr_get. unfold_exn.
  rewrite IH. destruct (Py.eq_int (Py.get extra "type") i.2) eqn:Hi.
  - by rewrite decide_True.
  - by rewrite decide_False.
Qed.

Lemma sub_type_names_inr members extra names :
  sub_type_names members extra = inr names ->
  members = [] \/ exists d, extra = PDict d.
Proof.
  destruct members as [|i members]; [by left|]. right.
  destruct extra; try done. by eexists.
Qed.

(** What a successful rewriting has found in the payload, and what it
    has made of it. *)
Lemma normalize_inv data self_id data' :
  normalize EventTypes data self_id = inr data' ->
  exists ty sys extra,
    data !! "type" = Some ty
    /\ enum_attr EventTypes "sys" = inr sys
    /\ data !! "extra" = Some (PDict extra)
    /\ if Py.eq_int ty sys then
         exists content message,
           data !! "content" = Some content
           /\ Py.format_template content = inr message
           /\ data' = notice_fields data self_id extra message
       else
         exists member rest channel_type,
           matching_members EventTypes extra = member :: rest
           /\ data !! "channel_type" = Some (PStr channel_type)
           /\ data' = message_fields data self_id extra (Py.lower member.1)
                        channel_type.
Proof.
  unfold normalize, Py.item, Py.attr_get, Py.attr_lower, Py.setitem.
  rewrite !get_insert_ne by done. intros H. unfold_exn.
  rewrite !lookup_insert_ne in H by done.
  destruct (data !! "type") as [ty|] eqn:Ety; [|done].
  destruct (enum_attr EventTypes "sys") as [|sys] eqn:Esys; [done|].
  exists ty, sys.
  destruct (Py.eq_int ty sys) eqn:Esy.
  - destruct (Py.get data "extra") as [| | | | |extra|] eqn:Eextra; try done.
    exists extra.
    rewrite !lookup_insert_ne in H by done.
    destruct (data !! "content") as [content|] eqn:Econtent; [|done].
    destruct (Py.format_template content) as [|message] eqn:Emessage; [done|].
    rewrite !get_insert_ne in H by done. injection H as <-.
    split_and!; try done.
    + unfold Py.get in Eextra. by destruct (data !! "extra"); simplify_eq/=.
    + exists content, message. split; [done|]. split; [done|].
      unfold notice_fields, identified. by destruct (Py.eq_str _ _).
  - destruct (sub_type_names EventTypes (Py.get data "extra"))
      as [|names] eqn:Enames; [done|].
    destruct names as [|name rest]; [done|]. cbv beta iota in H.
    rewrite !get_insert_ne in H by done.
    destruct (Py.get data "channel_type") as [| | |channel_type| | |] eqn:Ech; try done.
    cbv beta iota in H. rewrite get_insert_eq in H.
    rewrite !lookup_insert_ne, !get_insert_ne in H by done.
    destruct (data !! "extra") as [extra|] eqn:Eextra; [|done].
    destruct extra as [| | | | |extra|]; try done.
    cbv beta iota in H. rewrite lookup_insert_eq in H.
    cbv beta iota in H. rewrite !get_insert_ne in H by done.
    injection H as <-.
    exists extra. split_and!; try done.
    assert (Py.get data "extra" = PDict extra) as Hextra
      by (unfold Py.get; by rewrite Eextra).
    rewrite Hextra, sub_type_names_object in Enames.
    destruct (matching_members EventTypes extra) as [|member members] eqn:Hm;
      [done|].
    injection Enames as <- _.
    exists member, members, channel_type. split_and!; try done.
    + unfold Py.get in Ech. by destruct (data !! "channel_type"); simplify_eq/=.
    + unfold message_fields, identified. simpl.
      by destruct (Py.eq_str (Py.get data "author_id") "1"),
                  (String.eqb (Py.lower channel_type) "person").
Qed.




End Normalize.

(** ** Frames *)

Section Frames.

Context {lib : Py.Library}.
Variable SignalTypes : SignalTable.
Variable EventTypes : EventTable.
Variable HeartbeatMetaEvent Event : Model.
Variable repr : value -> string.
Variable event_models : StringTrie.t.

Abbreviation json_to_event :=
  (json_to_event SignalTypes EventTypes HeartbeatMetaEvent Event repr event_models).
Abbreviation decode_payload :=
  (decode_payload EventTypes Event repr event_models).
Abbreviation decode := (decode EventTypes Event repr event_models).
Abbreviation dispatch := (dispatch SignalTypes HeartbeatMetaEvent).

(** An EVENT frame of another author whose payload resolves to a typed
    event. *)
Lemma event_typed store json_data signal sn data self_id data' model :
  distinct_signals SignalTypes ->
  json_data !! "s" = Some signal ->
  Py.eq_int signal (EVENT SignalTypes) = true ->
  json_data !! "sn" = Some sn ->
  json_data !! "d" = Some (PDict data) ->
  Py.eq_optstr (Py.get data "author_id") self_id = false ->
  normalize EventTypes data self_id = inr data' ->
  typed_candidate repr event_models data' model ->
  exists ev,
    json_to_event store (PDict json_data) self_id
    = (Return (Some ev), ResultStore.set_sn store self_id sn)
    /\ typed_candidate repr event_models data' (ev_model ev)
    /\ ev_fields ev = data'.
Proof.
  intros Hdist Hs Hsig Hsn Hd Hother Hn Hcand.
  rewrite json_to_event_dispatch, (dispatch_event _ _ _ _ _ sn _ Hdist Hs Hsig Hsn).
  rewrite (decode_payload_other _ _ _ _ _ _ _ Hd Hother).
  destruct (decode_typed EventTypes Event repr event_models json_data _ _ _ _ Hn Hcand)
    as (model' & Hcand' & ->).
  by eexists.
Qed.

(** C2.  A model registered at a dotted path is among the models that
    [get_event_model] returns for every name this path is a prefix of,
    component by component, or equal to; the models come in the order of
    their paths, the longest first; where no registered path leads to
    the name the result is empty, and [json_to_event] then builds the
    base [Event] from the envelope, whose payload is the rewritten one. *)
Theorem get_event_model_prefixes :
  (forall p q model,
      registered event_models p model ->
      components p `prefix_of` components q ->
      model ∈ get_event_model event_models q)
  /\ (forall q,
        get_event_model event_models q = (candidates event_models q).*2
        /\ StronglySorted more_specific (candidates event_models q)
        /\ forall path model,
             (path, model) ∈ candidates event_models q <->
             path `prefix_of` StringTrie.path_from_key ("." ++ q)
             /\ event_models !! path = Some model)
  /\ (forall q,
        (forall path, path `prefix_of` StringTrie.path_from_key ("." ++ q) ->
                      event_models !! path = None) ->
        get_event_model event_models q = [])
  /\ (forall store store' json_data data self_id data' name,
        dispatch store json_data self_id = (Continue, store') ->
        json_data !! "d" = Some (PDict data) ->
        Py.eq_optstr (Py.get data "author_id") self_id = false ->
        normalize EventTypes data self_id = inr data' ->
        event_name repr data' = inr name ->
        get_event_model event_models name = [] ->
        json_to_event store (PDict json_data) self_id
        = (dropped_on_failure (parse_obj Event (<["d" := PDict data']> json_data)),
           store')).
Proof.
  split_and!.
  - intros p q model Hreg Hpre. apply elem_of_get_event_model.
    exists (StringTrie.path_from_key ("." ++ p)). split; [|done].
    rewrite !path_from_key_dot. by apply prefix_cons.
  - intros q. split_and!.
    + apply get_event_model_candidates.
    + apply candidates_sorted.
    + intros. apply elem_of_candidates.
  - apply get_event_model_nil.
  - intros store store' json_data data self_id data' name Hdisp Hd Hother Hn He Hnil.
    rewrite json_to_event_dispatch, Hdisp.
    rewrite (decode_payload_other _ _ _ _ _ _ _ Hd Hother).
    by rewrite (decode_steps _ _ _ _ _ _ _ _ _ Hn He), Hnil.
Qed.

(** C3, amended.  The typed event that an EVENT envelope resolves to has
    the hint as its [self_id]; its [user_id] is "SYSTEM" when the
    [author_id] of the payload is "1" and is the [author_id] otherwise.
    When it is a message (the [type] of the payload is not
    [EventTypes.sys]), its [message_type] is the [channel_type] of the
    payload in lower case, with "person" turned into "private", and so
    never "person": "PERSON" gives "private".  When it is a system notice
    no [message_type] is written: the event has the one of the frame, or
    none. *)
Theorem typed_event_fields store json_data signal sn data self_id data' model :
  distinct_signals SignalTypes ->
  json_data !! "s" = Some signal ->
  Py.eq_int signal (EVENT SignalTypes) = true ->
  json_data !! "sn" = Some sn ->
  json_data !! "d" = Some (PDict data) ->
  Py.eq_optstr (Py.get data "author_id") self_id = false ->
  normalize EventTypes data self_id = inr data' ->
  typed_candidate repr event_models data' model ->
  exists ev,
    json_to_event store (PDict json_data) self_id
    = (Return (Some ev), ResultStore.set_sn store self_id sn)
    /\ typed_candidate repr event_models data' (ev_model ev)
    /\ ev_fields ev = data'
    /\ field ev "self_id" = Some (Py.of_optstr self_id)
    /\ field ev "user_id"
       = Some (if Py.eq_str (Py.get data "author_id") "1" then PStr "SYSTEM"
               else Py.get data "author_id")
    /\ (field ev "post_type" = Some (PStr "message") ->
        exists channel_type,
          data !! "channel_type" = Some (PStr channel_type)
          /\ field ev "message_type"
             = Some (PStr (if String.eqb (Py.lower channel_type) "person"
                           then "private" else Py.lower channel_type))
          /\ field ev "message_type" ≠ Some (PStr "person")
          /\ (channel_type = "PERSON" ->
              field ev "message_type" = Some (PStr "private")))
    /\ exists ty sys,
         data !! "type" = Some ty
         /\ enum_attr EventTypes "sys" = inr sys
         /\ if Py.eq_int ty sys
            then field ev "post_type" = Some (PStr "notice")
                 /\ field ev "message_type" = data !! "message_type"
            else field ev "post_type" = Some (PStr "message").
Proof.
  intros Hdist Hs Hsig Hsn Hd Hother Hn Hcand.
  destruct (event_typed store _ _ _ _ _ _ _ Hdist Hs Hsig Hsn Hd Hother Hn Hcand)
    as (ev & Hev & Hcand' & Hfields).
  exists ev. unfold field. rewrite Hfields.
  destruct (normalize_fields _ _ _ _ Hn)
    as (Hself & Huser & _ & _ & _ & ty & sys & Hty & Hsys & Hpost).
  split_and!; try done.
  - intros Hmsg. destruct (Py.eq_int ty sys).
    + destruct Hpost as [Hpost _]. congruence.
    + destruct Hpost as (_ & channel_type & Hch & Hmt).
      exists channel_type. split_and!; try done.
      * rewrite Hmt. destruct (String.eqb _ _) eqn:Hp; [done|].
        intros [= Heq]. rewrite Heq in Hp. done.
      * intros ->. rewrite Hmt.
        by rewrite (Py.lower_ascii_strings "PERSON" eq_refl).
  - exists ty, sys. split; [done|]. split; [done|].
    destruct (Py.eq_int ty sys); [done|]. by destruct Hpost.
Qed.





(** C5, amended.  An envelope that gets past the branch on the signal
    to the check of line 339, as every EVENT envelope does, and whose
    payload has the hint as its [author_id] yields no event, whatever
    else the payload holds. *)
Theorem own_message_ignored store json_data data self_id :
  json_data !! "d" = Some (PDict data) ->
  Py.eq_optstr (Py.get data "author_id") self_id = true ->
  (forall store',
      dispatch store json_data self_id = (Continue, store') ->
      json_to_event store (PDict json_data) self_id = (Return None, store'))
  /\ (forall signal sn,
        distinct_signals SignalTypes ->
        json_data !! "s" = Some signal ->
        Py.eq_int signal (EVENT SignalTypes) = true ->
        json_data !! "sn" = Some sn ->
        json_to_event store (PDict json_data) self_id
        = (Return None, ResultStore.set_sn store self_id sn)).
Proof.
  intros Hd Hown.
  assert (Hgo : forall store',
            dispatch store json_data self_id = (Continue, store') ->
            json_to_event store (PDict json_data) self_id = (Return None, store')).
  { intros store' Hdisp. rewrite json_to_event_dispatch, Hdisp.
    by rewrite (decode_payload_own _ _ _ _ _ _ _ Hd Hown). }
  split; [done|].
  intros signal sn Hdist Hs Hsig Hsn. apply Hgo.
  by apply (dispatch_event _ _ _ _ signal).
Qed.

(** C7, amended.  An envelope whose signal is RESUME_ACK yields no
    event.  An envelope whose signal is none of HELLO, PONG, EVENT,
    RECONNECT and RESUME_ACK is not dropped by the branch on the signal:
    with the store untouched it goes on to the check of the author and to
    the decoding of its payload, as an EVENT envelope does. *)
Theorem unhandled_signal_falls_through store json_data signal self_id :
  distinct_signals SignalTypes ->
  json_data !! "s" = Some signal ->
  (Py.eq_int signal (RESUME_ACK SignalTypes) = true ->
   json_to_event store (PDict json_data) self_id = (Return None, store))
  /\ (Py.eq_int signal (HELLO SignalTypes) = false ->
      Py.eq_int signal (PONG SignalTypes) = false ->
      Py.eq_int signal (EVENT SignalTypes) = false ->
      Py.eq_int signal (RECONNECT SignalTypes) = false ->
      Py.eq_int signal (RESUME_ACK SignalTypes) = false ->
      json_to_event store (PDict json_data) self_id
      = (decode_payload json_data self_id, store)).
Proof.
  intros Hdist Hs. split.
  - intros Hsig. by rewrite json_to_event_dispatch,
      (dispatch_resume_ack _ _ _ _ _ _ Hdist Hs Hsig).
  - intros H1 H2 H3 H4 H5. by rewrite json_to_event_dispatch,
      (dispatch_unhandled _ _ _ _ _ _ Hs H1 H2 H3 H4 H5).
Qed.



(** C10.  While no bot is bound the hint is [None].  An envelope that
    gets to the check of line 339 with a payload object that has no
    [author_id] yields no event, an EVENT envelope included, and the
    receive loop goes on to the next frame with nothing dispatched and no
    bot bound. *)
Theorem unbound_frame_without_author_dropped store json_data data :
  json_data !! "d" = Some (PDict data) ->
  data !! "author_id" = None ->
  (forall store',
      dispatch store json_data None = (Continue, store') ->
      json_to_event store (PDict json_data) None = (Return None, store')
      /\ forall bot_token c ws a s,
           sn_map a = store ->
           bot s = None ->
           receive SignalTypes EventTypes HeartbeatMetaEvent Event repr
             event_models bot_token c ws a s (inr (PDict json_data))
           = (None,
              {| sn_map := store'; connections := connections a;
                 notified := notified a |}, s))
  /\ (forall signal sn,
        distinct_signals SignalTypes ->
        json_data !! "s" = Some signal ->
        Py.eq_int signal (EVENT SignalTypes) = true ->
        json_data !! "sn" = Some sn ->
        json_to_event store (PDict json_data) None
        = (Return None, ResultStore.set_sn store None sn)).
Proof.
  intros Hd Hauthor.
  assert (Hown : Py.eq_optstr (Py.get data "author_id") None = true).
  { unfold Py.get. by rewrite Hauthor. }
  assert (Hgo : forall store',
            dispatch store json_data None = (Continue, store') ->
            json_to_event store (PDict json_data) None = (Return None, store')).
  { intros store' Hdisp. rewrite json_to_event_dispatch, Hdisp.
    by rewrite (decode_payload_own _ _ _ _ _ _ _ Hd Hown). }
  split.
  - intros store' Hdisp. split; [by apply Hgo|].
    intros bot_token c ws a s <- Hbot. unfold receive.
    rewrite Hbot. change (self_id <$> None) with (@None string).
    by rewrite (Hgo _ Hdisp).
  - intros signal sn Hdist Hs Hsig Hsn. apply Hgo.
    by apply (dispatch_event _ _ _ _ signal).
Qed.

End Frames.

(** ** The heartbeat task *)

Lemma ping_fields store self_id :
  exists d,
    ping store self_id = PDict d
    /\ d !! "s" = Some (PInt 2)
    /\ d !! "sn" = Some (ResultStore.get_sn store (Some self_id))
    /\ dom d = {["s"; "sn"]}.
Proof.
  eexists. split; [done|]. split_and!.
  - by simplify_map_eq.
  - by simplify_map_eq.
  - rewrite !dom_insert_L, dom_empty_L. set_solver.
Qed.

Lemma heartbeat_open self_id env trace ws :
  hb_connections env !! self_id = Some ws ->
  closed ws = false ->
  hb_send env = None ->
  start_heartbeat self_id (env :: trace)
  = ((ws, ping (hb_store env) self_id) :: (start_heartbeat self_id trace).1,
     (start_heartbeat self_id trace).2).
Proof.
  intros Hws Hopen Hsend. simpl. rewrite Hws, Hopen, Hsend.
  by destruct (start_heartbeat self_id trace).
Qed.

Lemma heartbeat_gone self_id env trace :
  reports_gone self_id env ->
  start_heartbeat self_id (env :: trace) = ([], Exited).
Proof.
  intros [Hnone|(ws & Hws & Hclosed)]; simpl.
  - by rewrite Hnone.
  - by rewrite Hws, Hclosed.
Qed.

Lemma heartbeat_sent self_id trace i ws frame :
  (start_heartbeat self_id trace).1 !! i = Some (ws, frame) ->
  exists env,
    trace !! i = Some env
    /\ hb_connections env !! self_id = Some ws
    /\ closed ws = false
    /\ frame = ping (hb_store env) self_id.
Proof.
  revert i. induction trace as [|env trace IH]; intros i; [done|]. simpl.
  destruct (hb_connections env !! self_id) as [ws'|] eqn:Hws; [|done].
  destruct (closed ws') eqn:Hopen; [done|].
  destruct (hb_send env) as [e|] eqn:Hsend.
  - destruct i as [|i]; [|done]. intros [= <- <-]. by exists env.
  - destruct (start_heartbeat self_id trace) as [sent how] eqn:Hrest.
    destruct i as [|i]; simpl.
    + intros [= <- <-]. by exists env.
    + intros Hi. by apply IH.
Qed.

(** C9.  In every round in which the registry reports an open socket for
    the identity, the heartbeat task sends [{"s": 2, "sn": get_sn(identity)}]
    with the sequence number of that moment, and it sends nothing else;
    in the first round in which the registry no longer holds the identity
    or reports the socket closed, the task ends, with no further frame
    and without raising. *)
Theorem heartbeat_rounds self_id trace :
  (forall i ws frame,
      (start_heartbeat self_id trace).1 !! i = Some (ws, frame) ->
      exists env d,
        trace !! i = Some env
        /\ hb_connections env !! self_id = Some ws
        /\ closed ws = false
        /\ frame = PDict d
        /\ d !! "s" = Some (PInt 2)
        /\ d !! "sn" = Some (ResultStore.get_sn (hb_store env) (Some self_id))
        /\ dom d = {["s"; "sn"]})
  /\ (forall before env after,
        trace = (before ++ env :: after)%list ->
        Forall (fun e => reports_open self_id e /\ hb_send e = None) before ->
        (reports_open self_id env ->
         exists ws,
           hb_connections env !! self_id = Some ws
           /\ (start_heartbeat self_id trace).1 !! length before
              = Some (ws, ping (hb_store env) self_id))
        /\ (reports_gone self_id env ->
            (start_heartbeat self_id trace).2 = Exited
            /\ length (start_heartbeat self_id trace).1 = length before)).
Proof.
  split.
  - intros i ws frame Hi.
    destruct (heartbeat_sent _ _ _ _ _ Hi) as (env & Henv & Hws & Hopen & ->).
    destruct (ping_fields (hb_store env) self_id) as (d & Hd & ? & ? & ?).
    by exists env, d.
  - intros before env after -> Hbefore.
    induction Hbefore as [|e before [(ws & Hws & Hopen) Hsend] _ IH].
    + rewrite app_nil_l. split.
      * intros (ws & Hws & Hopen). exists ws. split; [done|]. simpl.
        rewrite Hws, Hopen. destruct (hb_send env); [done|].
        by destruct (start_heartbeat self_id after).
      * intros Hgone. by rewrite (heartbeat_gone _ _ _ Hgone).
    + rewrite <- app_comm_cons, (heartbeat_open _ _ _ _ Hws Hopen Hsend).
      simpl. destruct IH as [IHopen IHgone]. split.
      * done.
      * intros Hgone. destruct (IHgone Hgone) as [-> ->]. done.
Qed.

(** ** The receive loop and its teardown *)

Section Teardown.

Context {lib : Py.Library}.
Variable SignalTypes : SignalTable.
Variable EventTypes : EventTable.
Variable HeartbeatMetaEvent Event : Model.
Variable repr : value -> string.
Variable event_models : StringTrie.t.
Variable bot_token : string.

Abbreviation receive_loop :=
  (receive_loop SignalTypes EventTypes HeartbeatMetaEvent Event repr
     event_models bot_token).
Abbreviation turn :=
  (turn SignalTypes EventTypes HeartbeatMetaEvent Event repr event_models bot_token).

(** When [_get_gateway] answers, the teardown of a bound session puts the
    entry of the bot back to 0 and unbinds the bot. *)
Lemma teardown_resets c ws a s b url' :
  bot s = Some b ->
  gateway c = inr url' ->
  exists a',
    teardown c ws a s = (None, a', {| bot := None; url := url' |})
    /\ ResultStore.get_sn (sn_map a') (Some (self_id b)) = PInt 0
    /\ connections a' !! self_id b = None.
Proof.
  intros Hb Hg. unfold teardown. rewrite Hb, Hg. eexists. split; [done|].
  simpl. unfold ResultStore.get_sn, ResultStore.set_sn.
  by rewrite lookup_insert_eq, lookup_delete_eq.
Qed.

(** When [_get_gateway] raises, the teardown stops there: the store is
    not written to and the bot stays bound. *)
Lemma teardown_gateway_failure c ws a s b e :
  bot s = Some b ->
  gateway c = inl e ->
  teardown c ws a s
  = (Some e,
     {| sn_map := sn_map a; connections := close ws (connections a);
        notified := notified a |}, s).
Proof. intros Hb Hg. unfold teardown. by rewrite Hb, Hg. Qed.

(** A connection of a bound bot that ends on an exception other than
    [TokenError]: if the gateway address is fetched the [break] of the
    handler leaves the outer loop and no connection follows; if the fetch
    raises the outer loop goes on, with the store as the connection left
    it. *)
Lemma turn_after_failure c ws a s e a1 s1 b :
  opened c = inr ws ->
  receive_loop c ws a s (frames c) = (Some e, a1, s1) ->
  bot s1 = Some b ->
  (forall msg, e ≠ TokenError msg) ->
  match gateway c with
  | inr url' => (turn c a s).1.1 = Broken
  | inl e' =>
      turn c a s
      = (Retry e',
         {| sn_map := sn_map a1; connections := close ws (connections a1);
            notified := notified a1 |}, s1)
  end.
Proof.
  intros Hws Hloop Hb Hne. unfold Adapter.turn.
  rewrite Hws, Hloop. unfold teardown. rewrite Hb.
  destruct (gateway c) as [e'|url']; [done|]. simpl.
  unfold handle. rewrite Hb. destruct e; try done. by destruct (Hne msg).
Qed.

End Teardown.

(** C6, on the code.  The bot "42" is bound, an event with [sn] 17 has come
    in, the gateway asks for a reconnect and the gateway address cannot be
    fetched: the teardown leaves the entry of "42" at 17 and the bot bound,
    the outer loop connects again, and on the new connection the entry
    still reads 17 once the HELLO is through, before any EVENT frame. *)
Theorem teardown_skips_reset :
  let after_loss := sample_forward_ws [lost_connection] in
  let after_hello := sample_forward_ws [lost_connection; next_connection] in
  (after_loss.1.1 = [Retry NetworkError]
   /\ self_id <$> bot after_loss.2 = Some "42"
   /\ ResultStore.get_sn (sn_map after_loss.1.2) (Some "42") = PInt 17)
  /\ (after_hello.1.1 = [Retry NetworkError; Receiving]
      /\ self_id <$> bot after_hello.2 = Some "42"
      /\ ResultStore.get_sn (sn_map after_hello.1.2) (Some "42") = PInt 17).
Proof. cbv zeta. split_and!; compute_eq. Qed.

(** ** The sample configuration *)

Section Samples.

#[local] Existing Instance sample_library.

Lemma spec_signals_distinct : distinct_signals spec_signals.
Proof.
  unfold distinct_signals. apply (bool_decide_unpack _). vm_compute. exact I.
Qed.

Lemma hello_by_code_witness :
  exists ev,
    sample_json_to_event ∅ hello_frame None = (Return (Some ev), ∅)
    /\ ev_model ev = LifecycleMetaEvent
    /\ field ev "post_type" = Some (PStr "meta_event")
    /\ field ev "sub_type" = Some (PStr "connect")
    /\ field ev "meta_event_type" = Some (PStr "lifecycle").
Proof.
  destruct (hello_by_code spec_signals sample_types sample_HeartbeatMetaEvent
              sample_Event sample_repr sample_models ∅ hello_envelope
              hello_payload (PInt 1) (PInt 0) None)
    as (Hzero & _); try compute_eq.
  destruct Hzero as (ev & Hev & Hmodel & _ & Hfields); [compute_eq|].
  exists ev. split; [exact Hev|]. split; [exact Hmodel|exact Hfields].
Defined.

Lemma get_event_model_prefixes_witness :
  sample_TextEvent ∈ get_event_model text_models "message.text.group"
  /\ get_event_model text_models "message.text.group"
     = [sample_TextEvent; sample_MessageEvent]
  /\ get_event_model text_models "request.friend" = [].
Proof.
  destruct (get_event_model_prefixes spec_signals sample_types
              sample_HeartbeatMetaEvent sample_Event sample_repr text_models)
    as (Hin & _ & Hnil & _).
  split; [|split].
  - apply (Hin "message.text" "message.text.group").
    + compute_eq.
    + exists ["group"]. compute_eq.
  - compute_eq.
  - apply Hnil. intros path [rest Hpath]. vm_compute in Hpath.
    destruct path as [|a [|b [|c [|? ?]]]]; simplify_eq/=; compute_eq.
Defined.

(** The iff of C3 as it is stated fails for an author called "SYSTEM",
    whose typed event has the [user_id] "SYSTEM" although the [author_id]
    is not "1"; and a system notice on a "PERSON" channel resolves to a
    typed event with no [message_type] at all. *)
Lemma typed_event_claim_fails :
  (exists ev,
      (sample_json_to_event ∅ (PDict system_named_envelope) (Some "42")).1
      = Return (Some ev)
      /\ ev_model ev = sample_MessageEvent
      /\ field ev "self_id" = Some (PStr "42")
      /\ ~ (field ev "user_id" = Some (PStr "SYSTEM")
            <-> system_named_payload !! "author_id" = Some (PStr "1")))
  /\ (exists ev,
        (sample_json_to_event ∅ (PDict notice_envelope) (Some "42")).1
        = Return (Some ev)
        /\ ev_model ev = sample_NoticeEvent
        /\ notice_payload !! "channel_type" = Some (PStr "PERSON")
        /\ field ev "message_type" ≠ Some (PStr "private")).
Proof.
  split.
  - exists {| ev_model := sample_MessageEvent;
              ev_fields := normalized sample_types system_named_payload (Some "42") |}.
    split_and!; try compute_eq.
    intros [Himp _]. specialize (Himp ltac:(compute_eq)).
    vm_compute in Himp. discriminate Himp.
  - exists {| ev_model := sample_NoticeEvent;
              ev_fields := normalized sample_types notice_payload (Some "42") |}.
    split_and!; try compute_eq.
    vm_compute. discriminate.
Qed.

Lemma typed_event_fields_witness :
  (exists ev,
      sample_json_to_event ∅ (PDict person_envelope) (Some "42")
      = (Return (Some ev), ResultStore.set_sn ∅ (Some "42") (PInt 7))
      /\ field ev "self_id" = Some (PStr "42")
      /\ field ev "user_id" = Some (PStr "SYSTEM")
      /\ field ev "message_type" = Some (PStr "private"))
  /\ (exists ev,
        sample_json_to_event ∅ (PDict notice_envelope) (Some "42")
        = (Return (Some ev), ResultStore.set_sn ∅ (Some "42") (PInt 10))
        /\ field ev "post_type" = Some (PStr "notice")
        /\ field ev "message_type" = None).
Proof.
  split.
  - destruct (typed_event_fields spec_signals sample_types
                sample_HeartbeatMetaEvent sample_Event sample_repr sample_models
                ∅ person_envelope (PInt 0) (PInt 7) person_payload (Some "42")
                (normalized sample_types person_payload (Some "42"))
                sample_MessageEvent spec_signals_distinct)
      as (ev & Hev & _ & Hfields & Hself & Huser & Hmsg & _);
      [compute_eq|compute_eq|compute_eq|compute_eq|compute_eq|compute_eq| |].
    { exists "message.private.text".
      split; [compute_eq|]. split; [vm_compute; constructor|compute_eq]. }
    exists ev. split; [exact Hev|]. split; [exact Hself|]. split; [exact Huser|].
    destruct Hmsg as (channel_type & Hch & _ & _ & Hperson).
    { unfold field. rewrite Hfields. compute_eq. }
    apply Hperson. vm_compute in Hch. by injection Hch as <-.
  - destruct (typed_event_fields spec_signals sample_types
                sample_HeartbeatMetaEvent sample_Event sample_repr sample_models
                ∅ notice_envelope (PInt 0) (PInt 10) notice_payload (Some "42")
                (normalized sample_types notice_payload (Some "42"))
                sample_NoticeEvent spec_signals_distinct)
      as (ev & Hev & _ & _ & _ & _ & _ & ty & sys & Hty & Hsys & Hnotice);
      [compute_eq|compute_eq|compute_eq|compute_eq|compute_eq|compute_eq| |].
    { exists "notice.guild_member_online".
      split; [compute_eq|]. split; [vm_compute; constructor|compute_eq]. }
    exists ev. split; [exact Hev|].
    vm_compute in Hty. injection Hty as <-.
    vm_compute in Hsys. injection Hsys as <-.
    exact Hnotice.
Defined.



(** C5 as it is stated fails on frames that the branch on the signal
    settles before line 339: a RECONNECT whose payload names the bot as
    author raises, and a HELLO of that kind returns the lifecycle event. *)
Lemma own_signal_frames_not_ignored :
  Py.eq_optstr (PStr "42") (Some "42") = true
  /\ (exists data,
        own_reconnect !! "d" = Some (PDict data)
        /\ data !! "author_id" = Some (PStr "42"))
  /\ sample_json_to_event ∅ (PDict own_reconnect) (Some "42")
     = (Raise ReconnectError, ∅)
  /\ (exists data,
        own_hello !! "d" = Some (PDict data)
        /\ data !! "author_id" = Some (PStr "42"))
  /\ exists ev,
       sample_json_to_event ∅ (PDict own_hello) (Some "42")
       = (Return (Some ev), ∅)
       /\ ev_model ev = LifecycleMetaEvent.
Proof.
  split_and!; try compute_eq.
  - eexists. split; compute_refl.
  - eexists. split; compute_refl.
  - eexists. split; compute_refl.
Qed.

Lemma own_message_ignored_witness :
  sample_json_to_event ∅ (PDict own_envelope) (Some "42")
  = (Return None, ResultStore.set_sn ∅ (Some "42") (PInt 8)).
Proof.
  destruct (own_message_ignored spec_signals sample_types
              sample_HeartbeatMetaEvent sample_Event sample_repr sample_models
              ∅ own_envelope own_payload (Some "42"))
    as [_ Hevent]; [compute_eq|compute_eq|].
  apply (Hevent (PInt 0) (PInt 8) spec_signals_distinct); compute_eq.
Defined.

(** C7 as it is stated fails on a signal number that no branch names:
    the frame is decoded as an event. *)
Lemma unknown_signal_decoded :
  Forall (fun s => Py.eq_int (PInt 99) s = false)
    [HELLO spec_signals; PONG spec_signals; EVENT spec_signals;
     RECONNECT spec_signals; RESUME_ACK spec_signals]
  /\ exists ev,
       sample_json_to_event ∅ (PDict unknown_signal_envelope) (Some "42")
       = (Return (Some ev), ∅)
       /\ ev_model ev = sample_MessageEvent
       /\ field ev "message_id" = Some (PStr "m1").
Proof.
  split.
  - repeat constructor.
  - eexists. split_and!; compute_refl.
Qed.

Lemma unhandled_signal_falls_through_witness :
  sample_json_to_event ∅ (PDict resume_ack_envelope) (Some "42")
  = (Return None, ∅)
  /\ sample_json_to_event ∅ (PDict unknown_signal_envelope) (Some "42")
     = (decode_payload sample_types sample_Event sample_repr sample_models
          unknown_signal_envelope (Some "42"), ∅).
Proof.
  split.
  - destruct (unhandled_signal_falls_through spec_signals sample_types
                sample_HeartbeatMetaEvent sample_Event sample_repr sample_models
                ∅ resume_ack_envelope (PInt 7) (Some "42") spec_signals_distinct)
      as [Hack _]; [compute_eq|].
    apply Hack. compute_eq.
  - destruct (unhandled_signal_falls_through spec_signals sample_types
                sample_HeartbeatMetaEvent sample_Event sample_repr sample_models
                ∅ unknown_signal_envelope (PInt 99) (Some "42")
                spec_signals_distinct)
      as [_ Hfall]; [compute_eq|].
    apply Hfall; compute_eq.
Defined.

(** C8 as it is stated fails on the EVENT envelopes that lack what lines
    331 and 339 read outside the [try]: without an [sn] the call raises
    [KeyError], and with it, [KeyError] again without a payload and
    [AttributeError] with a payload that is not an object. *)
Lemma event_envelope_raises :
  sample_json_to_event ∅ (obj [("s", PInt 0); ("d", PDict text_payload)])
    (Some "42")
  = (Raise (KeyError "sn"), ∅)
  /\ sample_json_to_event ∅ (obj [("s", PInt 0); ("sn", PInt 5)]) (Some "42")
     = (Raise (KeyError "d"), ResultStore.set_sn ∅ (Some "42") (PInt 5))
  /\ sample_json_to_event ∅
       (obj [("s", PInt 0); ("sn", PInt 5); ("d", PStr "text")]) (Some "42")
     = (Raise AttributeError, ResultStore.set_sn ∅ (Some "42") (PInt 5))
  /\ ~ signal_error (Raise (KeyError "sn"))
  /\ ~ signal_error (Raise (KeyError "d"))
  /\ ~ signal_error (Raise AttributeError).
Proof. split_and!; try compute_eq; by intros []. Qed.


Lemma heartbeat_rounds_witness :
  start_heartbeat "42" [open_round; open_round; closed_round; open_round]
  = ([({| ws_id := 1; closed := false |}, obj [("s", PInt 2); ("sn", PInt 17)]);
      ({| ws_id := 1; closed := false |}, obj [("s", PInt 2); ("sn", PInt 17)])],
     Exited)
  /\ (start_heartbeat "42" [open_round; open_round; closed_round; open_round]).2
     = Exited
  /\ length (start_heartbeat "42" [open_round; open_round; closed_round; open_round]).1
     = 2.
Proof.
  destruct (heartbeat_rounds "42" [open_round; open_round; closed_round; open_round])
    as [_ Hrounds].
  destruct (Hrounds [open_round; open_round] closed_round [open_round] eq_refl)
    as [_ Hgone].
  { repeat constructor; try (eexists; split; compute_refl). }
  split; [compute_eq|]. apply Hgone. right. eexists. split; compute_refl.
Defined.

Lemma unbound_frame_without_author_dropped_witness :
  sample_json_to_event ∅ (PDict anonymous_envelope) None
  = (Return None, ResultStore.set_sn ∅ None (PInt 5)).
Proof.
  destruct (unbound_frame_without_author_dropped spec_signals sample_types
              sample_HeartbeatMetaEvent sample_Event sample_repr sample_models
              ∅ anonymous_envelope anonymous_payload)
    as [_ Hevent]; [compute_eq|compute_eq|].
  apply (Hevent (PInt 0) (PInt 5) spec_signals_distinct); compute_eq.
Defined.

End Samples.

(** * Further properties *)

(** ** The decoder and the sequence store *)

Section DecoderFrames.

Context {lib : Py.Library}.
Variable SignalTypes : SignalTable.
Variable EventTypes : EventTable.
Variable HeartbeatMetaEvent Event : Model.
Variable repr : value -> string.
Variable event_models : StringTrie.t.

Abbreviation json_to_event :=
  (json_to_event SignalTypes EventTypes HeartbeatMetaEvent Event repr event_models).
Abbreviation decode_payload :=
  (decode_payload EventTypes Event repr event_models).
Abbreviation dispatch := (dispatch SignalTypes HeartbeatMetaEvent).

Lemma dispatch_store store json_data self_id :
  (dispatch store json_data self_id).2 = store
  \/ exists signal sn,
       json_data !! "s" = Some signal
       /\ Py.eq_int signal (EVENT SignalTypes) = true
       /\ json_data !! "sn" = Some sn
       /\ dispatch store json_data self_id
          = (Continue, ResultStore.set_sn store self_id sn).
Proof.
  unfold Adapter.dispatch, Py.item.
  destruct (json_data !! "s") as [signal|] eqn:Hs; [|by left].
  destruct (Py.eq_int signal (HELLO SignalTypes)); [by left|].
  destruct (Py.eq_int signal (PONG SignalTypes)); [by left|].
  destruct (Py.eq_int signal (EVENT SignalTypes)) eqn:Hsig.
  - destruct (json_data !! "sn") as [sn|] eqn:Hsn; [|by left].
    right. by exists signal, sn.
  - destruct (Py.eq_int signal (RECONNECT SignalTypes)); [by left|].
    destruct (Py.eq_int signal (RESUME_ACK SignalTypes)); by left.
Qed.

Lemma json_to_event_store store json_data self_id :
  (json_to_event store (PDict json_data) self_id).2
  = (dispatch store json_data self_id).2.
Proof.
  rewrite json_to_event_dispatch.
  by destruct (dispatch store json_data self_id) as [[r|] store'].
Qed.

Lemma json_to_event_store_other store json_data self_id id :
  id ≠ self_id ->
  (json_to_event store json_data self_id).2 !! id = store !! id.
Proof.
  intros Hid. destruct json_data as [| | | | |envelope|]; try done.
  rewrite json_to_event_store.
  destruct (dispatch_store store envelope self_id)
    as [->|(signal & sn & Hs & Hsig & Hsn & ->)]; [done|].
  simpl. unfold ResultStore.set_sn. by rewrite lookup_insert_ne.
Qed.

(** The only entry of the sequence store that a call of [json_to_event]
    can write is the one of its hint, and it writes it only for an
    envelope whose signal is EVENT and that carries an [sn], to that [sn];
    every other call leaves the store as it was. *)
Theorem json_to_event_store_frame store json_data self_id :
  (forall id, id ≠ self_id ->
     (json_to_event store json_data self_id).2 !! id = store !! id)
  /\ ((json_to_event store json_data self_id).2 = store
      \/ exists envelope signal sn,
           json_data = PDict envelope
           /\ envelope !! "s" = Some signal
           /\ Py.eq_int signal (EVENT SignalTypes) = true
           /\ envelope !! "sn" = Some sn
           /\ (json_to_event store json_data self_id).2
              = ResultStore.set_sn store self_id sn).
Proof.
  destruct json_data as [| | | | |envelope|]; try (split; [done|by left]).
  rewrite json_to_event_store.
  destruct (dispatch_store store envelope self_id)
    as [->|(signal & sn & Hs & Hsig & Hsn & ->)].
  - split; [done|by left].
  - split.
    + intros id Hid. simpl. unfold ResultStore.set_sn. by rewrite lookup_insert_ne.
    + right. by exists envelope, signal, sn.
Qed.

Lemma decode_payload_raises json_data self_id e :
  decode_payload json_data self_id = Raise e ->
  (json_data !! "d" = None /\ e = KeyError "d")
  \/ (exists d, json_data !! "d" = Some d
                /\ (forall data, d ≠ PDict data) /\ e = AttributeError).
Proof.
  unfold Adapter.decode_payload.
  destruct (json_data !! "d") as [d|]; [|intros [= <-]; by left].
  destruct d as [| | | | |data|];
    try (intros [= <-]; right; eexists; by split_and!).
  destruct (Py.eq_optstr _ _); [done|].
  by destruct (Adapter.decode _ _ _ _ _ _ _).
Qed.

Lemma hello_raises json_data e :
  hello json_data = Done (Raise e) ->
  (exists data code,
      json_data !! "d" = Some (PDict data) /\ data !! "code" = Some code
      /\ ((Py.eq_int code 40103 = true /\ e = ReconnectError)
          \/ (Py.eq_int code 40101 = true /\ exists msg, e = TokenError msg)
          \/ (Py.eq_int code 40102 = true /\ exists msg, e = TokenError msg)))
  \/ (json_data !! "d" = None /\ e = KeyError "d")
  \/ (exists data, json_data !! "d" = Some (PDict data)
                   /\ data !! "code" = None /\ e = KeyError "code")
  \/ (exists d, json_data !! "d" = Some d
                /\ (forall data, d ≠ PDict data) /\ e = TypeError).
Proof.
  destruct (json_data !! "d") as [d|] eqn:Hd.
  2:{ unfold hello, Py.item. rewrite Hd. simpl. intros [= <-]. right. by left. }
  destruct d as [| | | | |data|];
    try (unfold hello, Py.item; rewrite Hd; simpl; intros [= <-];
         do 3 right; eexists; by split_and!).
  destruct (data !! "code") as [code|] eqn:Hcode.
  2:{ unfold hello, Py.item, Py.getitem, Py.item. rewrite Hd. simpl.
      rewrite Hcode. intros [= <-]. do 2 right. left. by exists data. }
  rewrite (hello_with_code _ _ _ Hd Hcode).
  destruct (Py.eq_int code 0); [done|].
  destruct (Py.eq_int code 40103) eqn:H3.
  { intros [= <-]. left. exists data, code. split_and!; try done. by left. }
  destruct (Py.eq_int code 40101) eqn:H1.
  { intros [= <-]. left. exists data, code. split_and!; try done.
    right. left. split; [done|by eexists]. }
  destruct (Py.eq_int code 40102) eqn:H2; [|done].
  intros [= <-]. left. exists data, code. split_and!; try done.
  right. right. split; [done|by eexists].
Qed.

(** [json_to_event] raises [ReconnectError] only for a RECONNECT envelope
    or a HELLO with code 40103, and [TokenError] only for a HELLO with
    code 40101 or 40102; in both cases the sequence store is untouched. *)
Theorem signal_errors_come_from_signals store json_data self_id e :
  (json_to_event store json_data self_id).1 = Raise e ->
  e = ReconnectError \/ (exists msg, e = TokenError msg) ->
  exists envelope signal,
    json_data = PDict envelope
    /\ envelope !! "s" = Some signal
    /\ (json_to_event store json_data self_id).2 = store
    /\ ((Py.eq_int signal (HELLO SignalTypes) = true
         /\ exists data code,
              envelope !! "d" = Some (PDict data) /\ data !! "code" = Some code
              /\ ((Py.eq_int code 40103 = true /\ e = ReconnectError)
                  \/ ((Py.eq_int code 40101 = true \/ Py.eq_int code 40102 = true)
                      /\ exists msg, e = TokenError msg)))
        \/ (Py.eq_int signal (RECONNECT SignalTypes) = true /\ e = ReconnectError)).
Proof.
  intros Hraise Hkind.
  destruct json_data as [| | | | |envelope|]; try done.
  exists envelope. revert Hraise. rewrite json_to_event_dispatch.
  assert (Hdec : decode_payload envelope self_id ≠ Raise e).
  { intros [[_ ->]|(_ & _ & _ & ->)]%decode_payload_raises;
      destruct Hkind as [?|[? ?]]; done. }
  unfold Adapter.dispatch, Py.item.
  destruct (envelope !! "s") as [signal|] eqn:Hs.
  2:{ simpl. intros [= <-]. destruct Hkind as [?|[? ?]]; done. }
  destruct (Py.eq_int signal (HELLO SignalTypes)) eqn:E1.
  { destruct (hello envelope) as [[r|e']|] eqn:Hh; simpl.
    - done.
    - intros [= ->]. exists signal. split_and!; try done. left. split; [done|].
      destruct (hello_raises _ _ Hh)
        as [(data & code & Hd & Hc & Hcase)|[[_ ->]|[(? & _ & _ & ->)|(? & _ & _ & ->)]]];
        try (destruct Hkind as [?|[? ?]]; done).
      exists data, code. split_and!; try done.
      destruct Hcase as [?|[[? ?]|[? ?]]]; [by left|right; split; [by left|done]|].
      right. split; [by right|done].
    - intros Hd. by destruct Hdec. }
  destruct (Py.eq_int signal (PONG SignalTypes)).
  { unfold pong, parse_obj. destruct (validate _ _); simpl; [done|].
    intros [= <-]. destruct Hkind as [?|[? ?]]; done. }
  destruct (Py.eq_int signal (EVENT SignalTypes)).
  { destruct (envelope !! "sn"); simpl.
    - intros Hd. by destruct Hdec.
    - intros [= <-]. destruct Hkind as [?|[? ?]]; done. }
  destruct (Py.eq_int signal (RECONNECT SignalTypes)) eqn:E4.
  { simpl. intros [= <-]. exists signal. split_and!; try done. by right. }
  destruct (Py.eq_int signal (RESUME_ACK SignalTypes)); [done|].
  simpl. intros Hd. by destruct Hdec.
Qed.

(** An EVENT envelope that lacks a part is not dropped, it raises: a
    [KeyError] for a missing [sn], with the store untouched; and, once
    the [sn] is recorded, a [KeyError] for a missing payload and an
    [AttributeError] for a payload that is not an object. *)
Theorem event_envelope_missing_parts store envelope signal self_id :
  distinct_signals SignalTypes ->
  envelope !! "s" = Some signal ->
  Py.eq_int signal (EVENT SignalTypes) = true ->
  (envelope !! "sn" = None ->
   json_to_event store (PDict envelope) self_id = (Raise (KeyError "sn"), store))
  /\ (forall sn,
        envelope !! "sn" = Some sn ->
        envelope !! "d" = None ->
        json_to_event store (PDict envelope) self_id
        = (Raise (KeyError "d"), ResultStore.set_sn store self_id sn))
  /\ (forall sn d,
        envelope !! "sn" = Some sn ->
        envelope !! "d" = Some d ->
        (forall data, d ≠ PDict data) ->
        json_to_event store (PDict envelope) self_id
        = (Raise AttributeError, ResultStore.set_sn store self_id sn)).
Proof.
  intros Hdist Hs Hsig. split_and!.
  - intros Hsn. rewrite json_to_event_dispatch.
    destruct (distinct_signals_ne _ Hdist) as (? & ? & _).
    unfold Adapter.dispatch, Py.item. rewrite Hs, Hsn, Hsig.
    by rewrite !(eq_int_ne _ _ _ Hsig) by done.
  - intros sn Hsn Hd.
    rewrite json_to_event_dispatch, (dispatch_event _ _ _ _ _ sn _ Hdist Hs Hsig Hsn).
    unfold Adapter.decode_payload. by rewrite Hd.
  - intros sn d Hsn Hd Hobj.
    rewrite json_to_event_dispatch, (dispatch_event _ _ _ _ _ sn _ Hdist Hs Hsig Hsn).
    unfold Adapter.decode_payload. rewrite Hd.
    destruct d as [| | | | |data|]; try done. by destruct (Hobj data).
Qed.

(** A PONG and a RECONNECT are settled by the signal alone: whatever else
    the envelope holds, and without any payload, a PONG gives the
    heartbeat event parsed from the two fields of lines 323 and 324 and a
    RECONNECT raises [ReconnectError]; the store is untouched. *)
Theorem pong_and_reconnect_ignore_payload store envelope signal self_id :
  distinct_signals SignalTypes ->
  envelope !! "s" = Some signal ->
  (Py.eq_int signal (PONG SignalTypes) = true ->
   json_to_event store (PDict envelope) self_id
   = (match parse_obj HeartbeatMetaEvent pong_fields with
      | inr ev => Return (Some ev)
      | inl e => Raise e
      end, store))
  /\ (Py.eq_int signal (RECONNECT SignalTypes) = true ->
      json_to_event store (PDict envelope) self_id = (Raise ReconnectError, store)).
Proof.
  intros Hdist Hs. split.
  - intros Hsig. rewrite json_to_event_dispatch.
    unfold Adapter.dispatch, Py.item. rewrite Hs, Hsig.
    assert (Py.eq_int signal (HELLO SignalTypes) = false) as ->.
    { apply (eq_int_ne _ _ _ Hsig). unfold distinct_signals in Hdist.
      rewrite !NoDup_cons, !not_elem_of_cons in Hdist. intuition congruence. }
    unfold pong. fold pong_fields. by destruct (parse_obj _ _).
  - intros Hsig. by rewrite json_to_event_dispatch,
      (dispatch_reconnect _ _ _ _ _ _ Hdist Hs Hsig).
Qed.

End DecoderFrames.

Section NormalizedFields.

Context {lib : Py.Library}.
Variable EventTypes : EventTable.
Variable repr : value -> string.
Variable event_models : StringTrie.t.

Lemma dom_insert_mono (X : gset string) (m : dict) k v :
  X ⊆ dom m -> X ⊆ dom (<[k := v]> m).
Proof. intros H. etrans; [exact H|]. apply dom_insert_subseteq. Qed.

Lemma identified_other data self_id k :
  k ∉ normalize_writes -> identified data self_id !! k = data !! k.
Proof.
  unfold normalize_writes. rewrite !not_elem_of_cons. intros Hk.
  unfold identified. rewrite !lookup_insert_ne by (intros <-; intuition congruence). done.
Qed.

(** The rewriting only adds to the payload: a field it does not write to
    is as it was in the frame, and no field of the frame is lost. *)
Theorem normalize_keeps_fields data self_id data' :
  normalize EventTypes data self_id = inr data' ->
  (forall k, k ∉ normalize_writes -> data' !! k = data !! k)
  /\ dom data ⊆ dom data'.
Proof using lib EventTypes.
  clear repr event_models.
  intros (ty & sys & extra & _ & _ & _ & Hcase)%normalize_inv.
  assert (Hdom : dom data ⊆ dom (identified data self_id)).
  { unfold identified. by repeat apply dom_insert_mono. }
  destruct (Py.eq_int ty sys).
  - destruct Hcase as (content & message & _ & _ & ->). split.
    + intros k Hk. rewrite <- (identified_other data self_id k Hk).
      unfold normalize_writes in Hk. rewrite !not_elem_of_cons in Hk.
      unfold notice_fields. rewrite !lookup_insert_ne by (intros <-; intuition congruence). done.
    + unfold notice_fields. by repeat apply dom_insert_mono.
  - destruct Hcase as (member & rest & channel_type & _ & _ & ->). split.
    + intros k Hk. rewrite <- (identified_other data self_id k Hk).
      unfold normalize_writes in Hk. rewrite !not_elem_of_cons in Hk.
      unfold message_fields. cbv zeta. rewrite !lookup_insert_ne by (intros <-; intuition congruence). done.
    + unfold message_fields. cbv zeta. by repeat apply dom_insert_mono.
Qed.

(** In a message the [sub_type] is the name, in lower case, of the first
    member of [EventTypes] whose value is [extra.type], and the [event]
    and the [extra] of the rewritten payload are both the [extra] of the
    frame with the [content] of the frame added to it. *)
Theorem message_sub_type_and_event data self_id data' :
  normalize EventTypes data self_id = inr data' ->
  data' !! "post_type" = Some (PStr "message") ->
  exists extra member rest,
    data !! "extra" = Some (PDict extra)
    /\ matching_members EventTypes extra = member :: rest
    /\ data' !! "sub_type" = Some (PStr (Py.lower member.1))
    /\ data' !! "event"
       = Some (PDict (<["content" := Py.get data "content"]> extra))
    /\ data' !! "extra" = data' !! "event".
Proof.
  intros (ty & sys & extra & _ & _ & Hextra & Hcase)%normalize_inv Hpost.
  destruct (Py.eq_int ty sys).
  - destruct Hcase as (content & message & _ & _ & ->).
    unfold notice_fields in Hpost. by simplify_map_eq.
  - destruct Hcase as (member & rest & channel_type & Hm & _ & ->).
    exists extra, member, rest. unfold message_fields. cbv zeta.
    split_and!; try done; by simplify_map_eq.
Qed.

(** In a system notice the [notice_type] is [extra.type] and the
    [message] is the message that the templating of line 354 makes of the
    [content]; [sub_type], [message_type], [extra] and [event] are not
    written: they are as the frame has them. *)
Theorem notice_type_and_message data self_id data' :
  normalize EventTypes data self_id = inr data' ->
  data' !! "post_type" = Some (PStr "notice") ->
  exists extra content message,
    data !! "extra" = Some (PDict extra)
    /\ data !! "content" = Some content
    /\ data' !! "notice_type" = Some (Py.get extra "type")
    /\ Py.format_template content = inr message
    /\ data' !! "message" = Some message
    /\ Forall (fun k => data' !! k = data !! k)
         ["sub_type"; "message_type"; "extra"; "event"].
Proof.
  intros (ty & sys & extra & _ & _ & Hextra & Hcase)%normalize_inv Hpost.
  destruct (Py.eq_int ty sys).
  - destruct Hcase as (content & message & Hcontent & Hmessage & ->).
    exists extra, content, message. unfold notice_fields, identified.
    split_and!; try done; try by simplify_map_eq.
    repeat constructor; by simplify_map_eq.
  - destruct Hcase as (member & rest & channel_type & _ & _ & ->).
    unfold message_fields in Hpost. cbv zeta in Hpost. by simplify_map_eq.
Qed.

Lemma truthy_str s : Py.truthy (PStr s) = negb (String.eqb s "").
Proof. done. Qed.

(** The name under which the registry is asked for a message is
    "message", then the [message_type] and the [sub_type], each after a
    dot and each left out when it is empty. *)
Theorem message_event_name data self_id data' message_type sub_type :
  normalize EventTypes data self_id = inr data' ->
  data' !! "post_type" = Some (PStr "message") ->
  data' !! "message_type" = Some (PStr message_type) ->
  data' !! "sub_type" = Some (PStr sub_type) ->
  event_name repr data'
  = inr ("message" ++ dotted message_type ++ dotted sub_type).
Proof.
  intros _ Hpost Hmt Hsub. unfold event_name, Py.item, Py.get. unfold_exn.
  rewrite Hpost. simpl. change ("message" ++ "_type") with "message_type".
  rewrite Hmt, Hsub. simpl. unfold dotted.
  by destruct (String.eqb message_type ""), (String.eqb sub_type "").
Qed.

End NormalizedFields.

(** ** Names and the registry *)

Lemma append_cons c a b : (String c a ++ b)%string = String c (a ++ b).
Proof. reflexivity. Qed.

Lemma append_nil b : ("" ++ b)%string = b.
Proof. reflexivity. Qed.

Lemma split_no_sep sep a :
  ~ In sep (list_ascii_of_string a) -> Py.split sep a = [a].
Proof.
  induction a as [|c a IH]; [done|]. simpl. intros Hnot.
  destruct (Ascii.eqb_spec c sep) as [->|_]; [by destruct Hnot; left|].
  rewrite IH; [done|]. intros ?. apply Hnot. by right.
Qed.

Lemma split_app_sep sep a x :
  ~ In sep (list_ascii_of_string a) ->
  Py.split sep (a ++ String sep x) = a :: Py.split sep x.
Proof.
  induction a as [|c a IH]; intros Hnot.
  - rewrite append_nil. apply split_cons_sep.
  - rewrite append_cons. simpl in *.
    destruct (Ascii.eqb_spec c sep) as [->|_]; [by destruct Hnot; left|].
    rewrite IH; [done|]. intros ?. apply Hnot. by right.
Qed.

Section Candidates.

Context {lib : Py.Library}.
Variable SignalTypes : SignalTable.
Variable EventTypes : EventTable.
Variable HeartbeatMetaEvent Event : Model.
Variable repr : value -> string.
Variable event_models : StringTrie.t.

Abbreviation json_to_event :=
  (json_to_event SignalTypes EventTypes HeartbeatMetaEvent Event repr event_models).

Lemma event_name_head data name post_type :
  data !! "post_type" = Some (PStr post_type) ->
  event_name repr data = inr name ->
  exists rest, name = (post_type ++ rest)%string
               /\ (rest = "" \/ exists r, rest = String "." r).
Proof.
  intros Hpost. unfold event_name, Py.item. unfold_exn. rewrite Hpost.
  intros [= <-].
  destruct (Py.truthy (Py.get data _)); destruct (Py.truthy (Py.get data _));
    eexists; (split; [done|]); rewrite ?append_nil; eauto.
Qed.

Lemma normalize_post_type data self_id data' :
  normalize EventTypes data self_id = inr data' ->
  data' !! "post_type" = Some (PStr "notice")
  \/ data' !! "post_type" = Some (PStr "message").
Proof.
  intros (_ & _ & _ & _ & _ & ty & sys & _ & _ & Hpost)%normalize_fields.
  destruct (Py.eq_int ty sys); destruct Hpost as [-> _]; eauto.
Qed.

Lemma registered_post_type_candidate data post_type name model :
  post_type = "notice" \/ post_type = "message" ->
  data !! "post_type" = Some (PStr post_type) ->
  event_name repr data = inr name ->
  registered event_models post_type model ->
  model ∈ get_event_model event_models name.
Proof.
  intros Hpt Hpost Hname Hreg.
  destruct (event_name_head _ _ _ Hpost Hname) as (rest & -> & Hrest).
  assert (Hno : ~ In "."%char (list_ascii_of_string post_type)).
  { destruct Hpt as [-> | ->]; simpl; intros H;
      repeat (destruct H as [H|H]; [discriminate H|]); done. }
  apply elem_of_get_event_model.
  exists (StringTrie.path_from_key ("." ++ post_type)). split; [|done].
  rewrite !path_from_key_dot. apply prefix_cons. unfold components.
  rewrite (split_no_sep _ _ Hno).
  destruct Hrest as [->|[r ->]].
  - replace (post_type ++ "")%string with post_type.
    + by rewrite (split_no_sep _ _ Hno).
    + clear. induction post_type as [|c s IH]; [done|].
      rewrite append_cons. by rewrite <- IH.
  - rewrite (split_app_sep _ _ _ Hno). by exists (Py.split "." r).
Qed.

(** A model registered at "message" is a candidate for every message, and
    one registered at "notice" for every system notice, whatever the
    rest of the name is; if it accepts the rewritten payload, the EVENT
    frame resolves to a typed event that carries the rewritten payload,
    and never to the base [Event] or to nothing. *)
Theorem catch_all_model_resolves store json_data signal sn data self_id
    data' post_type model :
  distinct_signals SignalTypes ->
  json_data !! "s" = Some signal ->
  Py.eq_int signal (EVENT SignalTypes) = true ->
  json_data !! "sn" = Some sn ->
  json_data !! "d" = Some (PDict data) ->
  Py.eq_optstr (Py.get data "author_id") self_id = false ->
  normalize EventTypes data self_id = inr data' ->
  data' !! "post_type" = Some (PStr post_type) ->
  registered event_models post_type model ->
  (exists name,
      event_name repr data' = inr name
      /\ model ∈ get_event_model event_models name)
  /\ (validate model data' = true ->
      exists ev,
        json_to_event store (PDict json_data) self_id
        = (Return (Some ev), ResultStore.set_sn store self_id sn)
        /\ ev_fields ev = data'
        /\ typed_candidate repr event_models data' (ev_model ev)).
Proof.
  intros Hdist Hs Hsig Hsn Hd Hother Hn Hpost Hreg.
  destruct (event_name_total EventTypes repr _ _ _ Hn) as [name Hname].
  assert (Hpt : post_type = "notice" \/ post_type = "message").
  { destruct (normalize_post_type _ _ _ Hn) as [H|H];
      rewrite H in Hpost; injection Hpost as <-; eauto. }
  assert (Hin := registered_post_type_candidate _ _ _ _ Hpt Hpost Hname Hreg).
  split; [by exists name|].
  intros Hok.
  destruct (event_typed SignalTypes EventTypes HeartbeatMetaEvent Event repr
              event_models store json_data signal sn data self_id data' model)
    as (ev & Hev & Hcand & Hfields); try done.
  { by exists name. }
  by exists ev.
Qed.

End Candidates.

Lemma prefixes_last (event_models : StringTrie.t) key model :
  event_models !! StringTrie.path_from_key key = Some model ->
  last (StringTrie.prefixes event_models key)
  = Some (StringTrie.path_from_key key, model).
Proof.
  intros Hlook. unfold StringTrie.prefixes.
  rewrite seq_S, omap_app. simpl. rewrite firstn_all, Hlook. simpl.
  apply last_snoc.
Qed.

(** The model registered at exactly the name asked for comes first in
    the result of [get_event_model]. *)
Lemma exact_match_comes_first (event_models : StringTrie.t) event_name model :
  registered event_models event_name model ->
  head (get_event_model event_models event_name) = Some model.
Proof.
  intros Hreg. unfold get_event_model.
  rewrite head_reverse, fmap_last, (prefixes_last _ _ _ Hreg). done.
Qed.

Lemma prefixes_insert_other (event_models : StringTrie.t) key path model :
  ~ path `prefix_of` StringTrie.path_from_key key ->
  StringTrie.prefixes (<[path := model]> event_models) key
  = StringTrie.prefixes event_models key.
Proof.
  intros Hnot. unfold StringTrie.prefixes.
  apply list_omap_ext, Forall2_same_length_lookup. split; [done|].
  intros i pos pos' Hpos Hpos'. simplify_eq.
  rewrite lookup_insert_ne; [done|].
  intros ->. apply Hnot, prefix_take.
Qed.

Lemma prefixes_insert_elem (event_models : StringTrie.t) key path model step :
  step ∈ StringTrie.prefixes (<[path := model]> event_models) key ->
  step = (path, model) \/ step ∈ StringTrie.prefixes event_models key.
Proof.
  destruct step as [p m].
  intros [Hpre Hlook]%elem_of_prefixes.
  destruct (decide (path = p)) as [->|Hne].
  - rewrite lookup_insert_eq in Hlook. left. congruence.
  - rewrite lookup_insert_ne in Hlook by done. right. by apply elem_of_prefixes.
Qed.

(** [add_custom_model] refuses a model whose [__event__] is empty and
    leaves the registry alone; otherwise the new model comes first for its
    own name, the result for a name that its path does not lead to is
    what it was, and no result gains any model but the new one. *)
Theorem add_custom_model_effect (event_models : StringTrie.t) model :
  (__event__ model = "" ->
   exists msg, add_custom_model event_models model = inl (ValueError msg))
  /\ (__event__ model ≠ "" ->
      exists event_models',
        add_custom_model event_models model = inr event_models'
        /\ head (get_event_model event_models' (__event__ model)) = Some model
        /\ (forall name,
              ~ components (__event__ model) `prefix_of` components name ->
              get_event_model event_models' name
              = get_event_model event_models name)
        /\ (forall name other,
              other ∈ get_event_model event_models' name ->
              other = model \/ other ∈ get_event_model event_models name)).
Proof.
  unfold add_custom_model. rewrite truthy_str. split.
  - intros ->. simpl. by eexists.
  - intros Hne. assert (String.eqb (__event__ model) "" = false) as ->
      by (by apply String.eqb_neq).
    simpl. eexists. split; [done|]. split_and!.
    + apply exact_match_comes_first. unfold registered, StringTrie.set.
      apply lookup_insert_eq.
    + intros name Hnot. unfold get_event_model, StringTrie.set.
      rewrite prefixes_insert_other; [done|].
      rewrite !path_from_key_dot. intros Hpre. apply Hnot.
      by apply prefix_cons_inv_2 in Hpre.
    + intros name other. unfold get_event_model, StringTrie.set.
      rewrite !elem_of_reverse, !list_elem_of_fmap.
      intros (step & -> & [->|Hin]%prefixes_insert_elem); [by left|].
      right. by exists step.
Qed.

(** Registering a second model under the [__event__] of a first one
    leaves the registry as if the first had never been registered. *)
Theorem add_custom_model_overwrites (event_models : StringTrie.t) first second
    event_models1 event_models2 :
  __event__ first = __event__ second ->
  add_custom_model event_models first = inr event_models1 ->
  add_custom_model event_models1 second = inr event_models2 ->
  add_custom_model event_models second = inr event_models2.
Proof.
  unfold add_custom_model. intros Heq.
  rewrite Heq. destruct (negb _); [done|].
  intros [= <-] [= <-]. unfold StringTrie.set. by rewrite insert_insert_eq.
Qed.


(** ** The heartbeat task, the decoder and the teardown together *)

Section HeartbeatComposition.

Context {lib : Py.Library}.
Variable SignalTypes : SignalTable.
Variable EventTypes : EventTable.
Variable HeartbeatMetaEvent Event : Model.
Variable repr : value -> string.
Variable event_models : StringTrie.t.

Abbreviation json_to_event :=
  (json_to_event SignalTypes EventTypes HeartbeatMetaEvent Event repr event_models).

(** The ping that follows an EVENT frame decoded for a bot carries the
    [sn] of that frame, and a frame decoded under another hint does not
    change the ping of the bot. *)
Theorem ping_reports_last_event store envelope signal sn self_id :
  distinct_signals SignalTypes ->
  envelope !! "s" = Some signal ->
  Py.eq_int signal (EVENT SignalTypes) = true ->
  envelope !! "sn" = Some sn ->
  ping (json_to_event store (PDict envelope) (Some self_id)).2 self_id
  = PDict (<["sn" := sn]> (<["s" := PInt 2]> ∅))
  /\ forall other json_data,
       other ≠ Some self_id ->
       ping (json_to_event store json_data other).2 self_id = ping store self_id.
Proof.
  intros Hdist Hs Hsig Hsn. split.
  - rewrite json_to_event_store,
      (dispatch_event _ _ _ _ _ sn _ Hdist Hs Hsig Hsn). simpl.
    unfold ping, ResultStore.get_sn, ResultStore.set_sn.
    by rewrite lookup_insert_eq.
  - intros other json_data Hother.
    unfold ping, ResultStore.get_sn.
    by rewrite (json_to_event_store_other SignalTypes EventTypes HeartbeatMetaEvent
                  Event repr event_models store json_data other).
Qed.

End HeartbeatComposition.

Lemma heartbeat_prefix_open self_id before rest :
  Forall (fun e => reports_open self_id e /\ hb_send e = None) before ->
  (start_heartbeat self_id (before ++ rest)).2 = (start_heartbeat self_id rest).2
  /\ length (start_heartbeat self_id (before ++ rest)).1
     = length before + length (start_heartbeat self_id rest).1.
Proof.
  induction 1 as [|e before [(ws & Hws & Hopen) Hsend] _ IH]; [done|].
  rewrite <- app_comm_cons, (heartbeat_open _ _ _ _ Hws Hopen Hsend). simpl.
  destruct IH as [-> ->]. done.
Qed.

(** The heartbeat task does not catch what [send] raises: in the first
    round in which [send] fails the task ends with that exception, the
    frame of that round being the last handed to [send]; and it never
    hands more frames to [send] than it has had rounds. *)
Theorem heartbeat_send_failure self_id before env after e :
  Forall (fun e => reports_open self_id e /\ hb_send e = None) before ->
  reports_open self_id env ->
  hb_send env = Some e ->
  (start_heartbeat self_id (before ++ env :: after)).2 = Raised e
  /\ length (start_heartbeat self_id (before ++ env :: after)).1
     = S (length before)
  /\ forall trace, length (start_heartbeat self_id trace).1 <= length trace.
Proof.
  intros Hbefore (ws & Hws & Hopen) Hsend.
  destruct (heartbeat_prefix_open self_id before (env :: after) Hbefore) as [-> ->].
  simpl. rewrite Hws, Hopen, Hsend. simpl. split_and!; [done|lia|].
  induction trace as [|r trace IH]; simpl; [done|].
  destruct (hb_connections r !! self_id) as [w|]; simpl; [|lia].
  destruct (closed w); simpl; [lia|].
  destruct (hb_send r); simpl; [lia|].
  destruct (start_heartbeat self_id trace). simpl in *. lia.
Qed.

Section SessionInvariants.

Context {lib : Py.Library}.
Variable SignalTypes : SignalTable.
Variable EventTypes : EventTable.
Variable HeartbeatMetaEvent Event : Model.
Variable repr : value -> string.
Variable event_models : StringTrie.t.
Variable bot_token : string.

Abbreviation json_to_event :=
  (json_to_event SignalTypes EventTypes HeartbeatMetaEvent Event repr event_models).
Abbreviation receive :=
  (receive SignalTypes EventTypes HeartbeatMetaEvent Event repr event_models
     bot_token).
Abbreviation receive_loop :=
  (receive_loop SignalTypes EventTypes HeartbeatMetaEvent Event repr
     event_models bot_token).
Abbreviation turn :=
  (turn SignalTypes EventTypes HeartbeatMetaEvent Event repr event_models bot_token).
Abbreviation _forward_ws :=
  (_forward_ws SignalTypes EventTypes HeartbeatMetaEvent Event repr event_models
     bot_token).


Lemma receive_bound c ws a s b frame :
  bot s = Some b ->
  exists r a',
    receive c ws a s frame = (r, a', s)
    /\ connections a' = connections a
    /\ (notified a' = notified a
        \/ exists ev, notified a' = HandleEvent b ev :: notified a).
Proof.
  intros Hb. unfold Adapter.receive. destruct frame as [e|json_data].
  { eexists _, _. split_and!; eauto. }
  destruct (Adapter.json_to_event _ _ _ _ _ _ _ _ _) as [[[ev|]|e] store'];
    rewrite ?Hb; eexists _, _; split_and!; eauto.
Qed.

Lemma receive_loop_bound c ws a s b fs :
  bot s = Some b ->
  exists r a' new,
    receive_loop c ws a s fs = (r, a', s)
    /\ connections a' = connections a
    /\ notified a' = (new ++ notified a)%list
    /\ Forall (fun n => exists ev, n = HandleEvent b ev) new
    /\ length new <= length fs.
Proof.
  intros Hb. revert a. induction fs as [|frame fs IH]; intros a.
  { exists None, a, []. by split_and!. }
  simpl. destruct (receive_bound c ws a s b frame Hb)
    as (r & a1 & -> & Hconn & Hnote).
  assert (exists new1, notified a1 = (new1 ++ notified a)%list
            /\ Forall (fun n => exists ev, n = HandleEvent b ev) new1
            /\ length new1 <= 1) as (new1 & Hn1 & Hf1 & Hl1).
  { destruct Hnote as [->|[ev ->]].
    - exists []. split_and!; [done|constructor|simpl; lia].
    - exists [HandleEvent b ev]. split_and!; [done| |simpl; lia].
      repeat constructor. by eexists. }
  destruct r as [e|].
  - exists (Some e), a1, new1. split_and!; try done. simpl. lia.
  - destruct (IH a1) as (r & a' & new & -> & Hconn' & Hn & Hf & Hl).
    exists r, a', (new ++ new1)%list. split_and!; try done.
    + congruence.
    + by rewrite Hn, Hn1, app_assoc.
    + by apply Forall_app.
    + rewrite length_app. simpl. lia.
Qed.

Lemma receive_unbound c ws a s frame :
  bot s = None ->
  exists r a' s',
    receive c ws a s frame = (r, a', s')
    /\ ((s' = s /\ connections a' = connections a /\ notified a' = notified a)
        \/ exists id username json_data store ev,
             let b := {| self_id := id; name := username; token := bot_token |} in
             frame = inr json_data
             /\ json_to_event (sn_map a) json_data None
                = (Return (Some ev), store)
             /\ isinstance ev "LifecycleMetaEvent" = true
             /\ Py.get (ev_fields ev) "sub_type" = PStr "connect"
             /\ bot_info c = inr (id, username)
             /\ r = None
             /\ s' = {| bot := Some b; url := url s |}
             /\ connections a' = <[id := ws]> (connections a)
             /\ notified a' = HandleEvent b ev :: BotConnect b :: notified a).
Proof.
  intros Hb. unfold Adapter.receive. destruct frame as [e|json_data].
  { eexists _, _, _. split; [done|]. by left. }
  rewrite Hb. change (self_id <$> None) with (@None string).
  destruct (Adapter.json_to_event _ _ _ _ _ _ _ _ _) as [[[ev|]|e] store']
    eqn:Hdecoded;
    try (eexists _, _, _; split; [done|]; by left).
  destruct (isinstance ev "LifecycleMetaEvent") eqn:Hinst; simpl;
    [|eexists _, _, _; split; [done|]; by left].
  destruct (Py.eq_str (Py.get (ev_fields ev) "sub_type") "connect") eqn:Hsub; simpl;
    [|eexists _, _, _; split; [done|]; by left].
  destruct (bot_info c) as [e|[id username]] eqn:Hinfo;
    [eexists _, _, _; split; [done|]; by left|].
  eexists _, _, _. split; [done|]. right. exists id, username, json_data, store', ev.
  split_and!; try done.
  unfold Py.eq_str in Hsub. destruct (Py.get (ev_fields ev) "sub_type"); try done.
  by apply String.eqb_eq in Hsub as ->.
Qed.

(** While a bot is bound the receive loop keeps it bound, leaves the
    registry of sockets alone, and notifies nothing but events handed to
    that bot, at most one for each frame. *)
Theorem bound_bot_is_kept c ws a s b fs :
  bot s = Some b ->
  exists r a' new,
    receive_loop c ws a s fs = (r, a', s)
    /\ connections a' = connections a
    /\ notified a' = (new ++ notified a)%list
    /\ Forall (fun n => exists ev, n = HandleEvent b ev) new
    /\ length new <= length fs.
Proof. apply receive_loop_bound. Qed.

(** While no bot is bound the receive loop hands no event over and
    leaves the registry alone.  What binds the bot is the first frame
    that [json_to_event], under the hint [None], decodes to a
    [LifecycleMetaEvent] whose [sub_type] is "connect": the frames before
    it have bound nothing and notified nothing.  The bot is bound under
    the identity that [_get_bot_info] gives, with the socket of the
    connection registered under that identity; the connection of the bot
    is notified first, then that connect event is handed to the bot, and
    then only events handed to this bot. *)
Theorem bot_is_bound_by_connect c ws a s fs :
  bot s = None ->
  exists r a' s',
    receive_loop c ws a s fs = (r, a', s')
    /\ ((bot s' = None /\ connections a' = connections a
         /\ notified a' = notified a)
        \/ exists id username before json_data after a0 store ev later,
             let b := {| self_id := id; name := username; token := bot_token |} in
             fs = (before ++ inr json_data :: after)%list
             /\ receive_loop c ws a s before = (None, a0, s)
             /\ connections a0 = connections a
             /\ notified a0 = notified a
             /\ json_to_event (sn_map a0) json_data None
                = (Return (Some ev), store)
             /\ isinstance ev "LifecycleMetaEvent" = true
             /\ Py.get (ev_fields ev) "sub_type" = PStr "connect"
             /\ bot_info c = inr (id, username)
             /\ s' = {| bot := Some b; url := url s |}
             /\ connections a' = <[id := ws]> (connections a)
             /\ notified a'
                = (later ++ HandleEvent b ev :: BotConnect b :: notified a)%list
             /\ Forall (fun n => exists ev', n = HandleEvent b ev') later).
Proof.
  intros Hb. revert a. induction fs as [|frame fs IH]; intros a.
  { exists None, a, s. split; [done|]. by left. }
  simpl. destruct (receive_unbound c ws a s frame Hb)
    as (r & a1 & s1 & Hreceive & Hcase). rewrite Hreceive.
  destruct Hcase
    as [(-> & Hconn & Hnote)
       |(id & username & json_data & store & ev & Hcase)].
  - destruct r as [e|].
    + eexists _, _, _. split; [done|]. by left.
    + destruct (IH a1) as (r & a' & s' & -> & Hcase').
      exists r, a', s'. split; [done|].
      destruct Hcase'
        as [(? & ? & ?)
           |(id & username & before & json_data & after & a0 & store & ev
             & later & Hcase')].
      * left. split_and!; congruence.
      * cbv zeta in Hcase'.
        destruct Hcase' as (-> & Hbefore & ? & ? & ? & ? & ? & ? & ? & ? & ? & ?).
        right.
        exists id, username, (frame :: before), json_data, after, a0, store, ev,
          later.
        cbv zeta. split_and!; try done; try congruence.
        simpl. by rewrite Hreceive.
  - cbv zeta in Hcase.
    destruct Hcase as (-> & Hdecoded & Hinst & Hsub & Hinfo & -> & -> & Hconn & Hnote).
    set (b := {| self_id := id; name := username; token := bot_token |}) in *.
    destruct (receive_loop_bound c ws a1 {| bot := Some b; url := url s |} b fs eq_refl)
      as (r & a' & later & -> & Hconn' & Hnote' & Hlater & _).
    eexists _, _, _. split; [done|]. right.
    exists id, username, [], json_data, fs, a, store, ev, later.
    cbv zeta. fold b. split_and!; try done.
    + congruence.
    + by rewrite Hnote', Hnote.
Qed.

(** A [TokenError] raised on a connection never ends [_forward_ws]: past
    the teardown it reaches the handler of the outer loop, which goes on
    to the next connection, with the same token. *)
Theorem token_error_is_retried c cs ws a s msg a1 s1 :
  opened c = inr ws ->
  receive_loop c ws a s (frames c) = (Some (TokenError msg), a1, s1) ->
  exists e a' s',
    turn c a s = (Retry e, a', s')
    /\ (e = TokenError msg
        \/ exists b, bot s1 = Some b /\ gateway c = inl e)
    /\ _forward_ws (c :: cs) a s
       = (Retry e :: (_forward_ws cs a' s').1.1,
          (_forward_ws cs a' s').1.2, (_forward_ws cs a' s').2).
Proof.
  intros Hws Hloop.
  assert (exists e a' s',
            turn c a s = (Retry e, a', s')
            /\ (e = TokenError msg \/ exists b, bot s1 = Some b /\ gateway c = inl e))
    as (e & a' & s' & Hturn & He).
  { unfold Adapter.turn. rewrite Hws, Hloop. unfold teardown, handle.
    destruct (bot s1) as [b|] eqn:Hb.
    - destruct (gateway c) as [e|url'] eqn:Hg.
      + eexists _, _, _. split; [done|]. right. by exists b.
      + eexists _, _, _. split; [done|]. by left.
    - eexists _, _, _. split; [done|]. by left. }
  exists e, a', s'. split_and!; try done.
  simpl. rewrite Hturn.
  by destruct (Adapter._forward_ws _ _ _ _ _ _ _ cs a' s') as [[hows a''] s''].
Qed.

(** When a turn of the outer loop ends on a [break], so that
    [_forward_ws] returns, no bot is bound any more: the connection had
    ended on an exception other than [TokenError], and a bot that was
    bound has been torn down in full, its entry of the sequence store put
    back to 0, its socket taken off the registry and its disconnection
    notified. *)
Theorem break_leaves_no_bot_bound c a s a' s' :
  turn c a s = (Broken, a', s') ->
  bot s' = None
  /\ exists ws e a1 s1,
       opened c = inr ws
       /\ receive_loop c ws a s (frames c) = (Some e, a1, s1)
       /\ (forall msg, e ≠ TokenError msg)
       /\ forall b,
            bot s1 = Some b ->
            gateway c = inr (url s')
            /\ ResultStore.get_sn (sn_map a') (Some (self_id b)) = PInt 0
            /\ connections a' !! self_id b = None
            /\ notified a' = BotDisconnect b :: notified a1.
Proof.
  unfold Adapter.turn. destruct (opened c) as [e|ws] eqn:Hws; [done|].
  destruct (receive_loop c ws a s (frames c)) as [[[e|] a1] s1] eqn:Hloop; [|done].
  unfold teardown. destruct (bot s1) as [b|] eqn:Hb.
  - destruct (gateway c) as [e'|url'] eqn:Hg; [done|].
    intros [= Hhow <- <-]. split; [done|].
    exists ws, e, a1, s1. split_and!; try done.
    + intros msg ->. done.
    + intros b' ?. simplify_eq/=. split_and!; try done.
      * unfold ResultStore.get_sn, ResultStore.set_sn. by rewrite lookup_insert_eq.
      * apply lookup_delete_eq.
  - intros [= Hhow <- <-]. split; [done|].
    exists ws, e, a1, s1. split_and!; try done.
    + intros msg ->. done.
    + intros b Hb'. congruence.
Qed.

(** [_forward_ws] opens a connection only after a turn that ended in the
    handler of the outer loop: of the turns it has made, all but the last
    ended there, and it makes at most one turn for each connection. *)
Theorem forward_ws_turns cs a s :
  length (_forward_ws cs a s).1.1 <= length cs
  /\ forall i how,
       (_forward_ws cs a s).1.1 !! i = Some how ->
       S i < length (_forward_ws cs a s).1.1 ->
       exists e, how = Retry e.
Proof.
  revert a s. induction cs as [|c cs IH]; intros a s; [by split|].
  simpl. destruct (turn c a s) as [[how a1] s1].
  destruct how as [| |e].
  - simpl. split; [lia|]. intros [|i] ? ? ?; simpl in *; lia.
  - simpl. split; [lia|]. intros [|i] ? ? ?; simpl in *; lia.
  - destruct (IH a1 s1) as [Hlen Hretry].
    destruct (Adapter._forward_ws _ _ _ _ _ _ _ cs a1 s1) as [[hows a2] s2].
    simpl in *. split; [lia|].
    intros [|i] how' Hi Hlt; simpl in *.
    + injection Hi as <-. by eexists.
    + apply (Hretry i); [done|lia].
Qed.

End SessionInvariants.

(** ** The REST side *)

Lemma request_returns adapter_exception init_raises sent response :
  Api.request adapter_exception init_raises sent = inr response
  <-> sent = inr response
      /\ (200 <= Api.status_code response < 300)%Z
      /\ Api.has_content response = true.
Proof.
  unfold Api.request, Api.check_status, Api.fail, Api.raise_built.
  destruct sent as [e|r]; simpl.
  { split; [by destruct (adapter_exception e)|by intros [? _]]. }
  destruct ((200 <=? Api.status_code r)%Z && (Api.status_code r <? 300)%Z)%bool
    eqn:Hok.
  - apply andb_true_iff in Hok as [?%Z.leb_le ?%Z.ltb_lt].
    destruct (Api.has_content r) eqn:Hc; simpl.
    + split; [intros [= <-]; by split_and!|by intros [[= <-] _]].
    + split; [by destruct (adapter_exception _)|].
      intros ([= <-] & _ & ?). congruence.
  - assert (~ (200 <= Api.status_code r < 300)%Z).
    { apply andb_false_iff in Hok as [?%Z.leb_gt|?%Z.ltb_ge]; lia. }
    split.
    + repeat (case_match; try done).
    + intros ([= <-] & ? & _). done.
Qed.

(** [request] returns a response exactly when the driver has returned it
    with a status from 200 to 299 and a content that is not empty. *)
Theorem request_returns_iff adapter_exception init_raises sent response :
  Api.request adapter_exception init_raises sent = inr response
  <-> sent = inr response
      /\ (200 <= Api.status_code response < 300)%Z
      /\ Api.has_content response = true.
Proof. apply request_returns. Qed.


(** *** The path of an API *)

Lemma lower_not_upper c :
  Api.is_upper c = true -> Api.is_upper (Py.lower_ascii c) = false.
Proof.
  destruct c as [[] [] [] [] [] [] [] []]; vm_compute; congruence.
Qed.

Lemma dash_not_upper : Api.is_upper "-" = false.
Proof. reflexivity. Qed.

Lemma eqb_upper_false c m :
  Api.is_upper c = false -> Api.is_upper m = true -> Ascii.eqb c m = false.
Proof.
  intros Hc Hm. destruct (Ascii.eqb_spec c m) as [->|]; [congruence|done].
Qed.

Lemma replace_cons old new c s :
  Api.replace old new (String c s)
  = if Ascii.eqb c old then (new ++ Api.replace old new s)%string
    else String c (Api.replace old new s).
Proof. reflexivity. Qed.

Lemma replace_kebab_of capitals m api :
  Api.is_upper m = true ->
  Api.replace m (String "-" (String (Py.lower_ascii m) "")) (kebab_of capitals api)
  = kebab_of (capitals ++ [m]) api.
Proof.
  intros Hm. induction api as [|c api IH]; [done|]. cbn [kebab_of].
  rewrite existsb_app. cbn [existsb]. rewrite orb_false_r.
  destruct (Api.is_upper c) eqn:Hc; cbn [andb].
  - destruct (existsb (Ascii.eqb c) capitals) eqn:Hin; cbn [orb].
    + rewrite !replace_cons.
      rewrite (eqb_upper_false _ _ dash_not_upper Hm).
      rewrite (eqb_upper_false _ _ (lower_not_upper _ Hc) Hm). by rewrite IH.
    + rewrite replace_cons. destruct (Ascii.eqb_spec c m) as [->|Hne].
      * rewrite append_cons, append_cons, append_nil. by rewrite IH.
      * by rewrite IH.
  - rewrite replace_cons, (eqb_upper_false _ _ Hc Hm). by rewrite IH.
Qed.

Lemma fold_replace_kebab_of ms capitals api :
  Forall (fun m => Api.is_upper m = true) ms ->
  fold_left (fun api m =>
               Api.replace m (String "-" (String (Py.lower_ascii m) "")) api)
    ms (kebab_of capitals api)
  = kebab_of (capitals ++ ms) api.
Proof.
  intros Hms. revert capitals.
  induction Hms as [|m ms Hm _ IH]; intros capitals; simpl.
  - by rewrite app_nil_r.
  - rewrite (replace_kebab_of _ _ _ Hm), IH. by rewrite <- app_assoc.
Qed.

Lemma kebab_of_nil api : kebab_of [] api = api.
Proof.
  induction api as [|c api IH]; [done|]. simpl.
  rewrite andb_false_r. by rewrite IH.
Qed.

Lemma findall_upper_all api :
  Forall (fun m => Api.is_upper m = true) (Api.findall_upper api).
Proof.
  induction api as [|c api IH]; simpl; [constructor|].
  destruct (Api.is_upper c) eqn:Hc; [by constructor|done].
Qed.

Lemma kebab_of_found capitals api :
  (forall c, In c (list_ascii_of_string api) -> Api.is_upper c = true ->
             existsb (Ascii.eqb c) capitals = true) ->
  kebab_of capitals api = kebab api.
Proof.
  induction api as [|c api IH]; [done|]. simpl. intros Hall.
  rewrite IH by (intros; apply Hall; auto).
  destruct (Api.is_upper c) eqn:Hc; [|done]. simpl.
  by rewrite (Hall c (or_introl eq_refl) Hc).
Qed.

Lemma findall_upper_found api c :
  In c (list_ascii_of_string api) -> Api.is_upper c = true ->
  existsb (Ascii.eqb c) (Api.findall_upper api) = true.
Proof.
  induction api as [|c' api IH]; [done|]. simpl.
  intros [->|Hin] Hc.
  - rewrite Hc. simpl. by rewrite Ascii.eqb_refl.
  - destruct (Api.is_upper c'); simpl; rewrite IH by done; by rewrite ?orb_true_r.
Qed.

(** The loop of lines 99 to 102, which replaces the capitals one after
    the other as [re.findall] lists them, repeats included, comes to one
    pass over the name in which every capital gives way to a dash and its
    small letter. *)
Lemma dash_capitals_one_pass api : Api.dash_capitals api = kebab api.
Proof.
  unfold Api.dash_capitals.
  rewrite <- (kebab_of_nil api) at 2.
  rewrite (fold_replace_kebab_of _ _ _ (findall_upper_all api)). simpl.
  apply kebab_of_found. intros c. apply findall_upper_found.
Qed.

Lemma kebab_chars api :
  Forall (fun c => Api.is_upper c = false) (list_ascii_of_string (kebab api)).
Proof.
  induction api as [|c api IH]; simpl; [constructor|].
  destruct (Api.is_upper c) eqn:Hc; simpl.
  - constructor; [done|]. constructor; [by apply lower_not_upper|done].
  - by constructor.
Qed.

Lemma kebab_id api :
  Forall (fun c => Api.is_upper c = false) (list_ascii_of_string api) ->
  kebab api = api.
Proof.
  induction api as [|c api IH]; [done|]. simpl.
  intros [Hc Hrest]%Forall_cons. rewrite Hc. by rewrite IH.
Qed.

Lemma replace_underscore_chars api :
  Forall (fun c => Api.is_upper c = false) (list_ascii_of_string api) ->
  Forall (fun c => Api.is_upper c = false /\ c ≠ "_"%char)
    (list_ascii_of_string (Api.replace "_" "/" api)).
Proof.
  induction api as [|c api IH]; [constructor|].
  intros [Hc Hrest]%Forall_cons. rewrite replace_cons.
  destruct (Ascii.eqb_spec c "_") as [->|Hne].
  - rewrite append_cons, append_nil. simpl. constructor; [done|by apply IH].
  - simpl. constructor; [done|by apply IH].
Qed.

Lemma replace_id old new api :
  ~ In old (list_ascii_of_string api) -> Api.replace old new api = api.
Proof.
  induction api as [|c api IH]; [done|]. simpl. intros Hnot.
  destruct (Ascii.eqb_spec c old) as [->|_]; [destruct Hnot; by left|].
  rewrite IH; [done|]. intros ?. apply Hnot. by right.
Qed.

Lemma slice_from_chars (P : ascii -> Prop) n api :
  Forall P (list_ascii_of_string api) ->
  Forall P (list_ascii_of_string (Api.slice_from n api)).
Proof.
  revert api. induction n as [|n IH]; intros [|c api]; simpl; try done.
  intros [_ ?]%Forall_cons. by apply IH.
Qed.

Lemma lstrip_chars (P : ascii -> Prop) c api :
  Forall P (list_ascii_of_string api) ->
  Forall P (list_ascii_of_string (Api.lstrip c api)).
Proof.
  induction api as [|a api IH]; [done|]. simpl.
  destruct (Ascii.eqb a c); [|done]. intros [_ ?]%Forall_cons. by apply IH.
Qed.

Lemma rstrip_chars (P : ascii -> Prop) c api :
  Forall P (list_ascii_of_string api) ->
  Forall P (list_ascii_of_string (Api.rstrip c api)).
Proof.
  induction api as [|a api IH]; [done|]. simpl.
  intros [Ha Hrest]%Forall_cons. specialize (IH Hrest).
  destruct (Api.rstrip c api) as [|b rest].
  - destruct (Ascii.eqb a c); simpl; [constructor|by repeat constructor].
  - simpl. by constructor.
Qed.

Lemma lstrip_head c api :
  head (list_ascii_of_string (Api.lstrip c api)) ≠ Some c.
Proof.
  induction api as [|a api IH]; [done|]. simpl.
  destruct (Ascii.eqb_spec a c) as [->|Hne]; [done|]. simpl. congruence.
Qed.

Lemma rstrip_head c api :
  head (list_ascii_of_string api) ≠ Some c ->
  head (list_ascii_of_string (Api.rstrip c api)) ≠ Some c.
Proof.
  destruct api as [|a api]; [done|]. simpl. intros Ha.
  destruct (Api.rstrip c api); [|done].
  by destruct (Ascii.eqb a c).
Qed.

Lemma rstrip_last c api :
  last (list_ascii_of_string (Api.rstrip c api)) ≠ Some c.
Proof.
  induction api as [|a api IH]; [done|]. simpl.
  destruct (Api.rstrip c api) as [|b rest] eqn:Hr.
  - destruct (Ascii.eqb_spec a c) as [->|Hne]; [done|]. simpl. congruence.
  - simpl in *. done.
Qed.

Lemma lstrip_id c api :
  head (list_ascii_of_string api) ≠ Some c -> Api.lstrip c api = api.
Proof.
  destruct api as [|a api]; [done|]. simpl. intros Ha.
  destruct (Ascii.eqb_spec a c) as [->|_]; done.
Qed.

Lemma rstrip_id c api :
  last (list_ascii_of_string api) ≠ Some c -> Api.rstrip c api = api.
Proof.
  induction api as [|a api IH]; [done|]. simpl. intros Hlast.
  destruct api as [|b api].
  - simpl in *. destruct (Ascii.eqb_spec a c) as [->|_]; done.
  - rewrite IH by done. done.
Qed.

(** Whatever the name of the API, the path that [_call_api] makes of it
    holds no capital and no underscore, and neither begins nor ends with
    a slash. *)
Theorem api_path_is_path_like api : path_like (Api.api_path api).
Proof.
  unfold Api.api_path. rewrite dash_capitals_one_pass.
  assert (Hchars := replace_underscore_chars _ (kebab_chars api)).
  set (replaced := Api.replace "_" "/" (kebab api)) in *.
  set (cut := if String.prefix "/api/v3/" replaced
              then Api.slice_from (String.length "/api/v3/") replaced
              else if String.prefix "api/v3" replaced
                   then Api.slice_from (String.length "api/v3") replaced
                   else replaced).
  assert (Hcut : Forall (fun c => Api.is_upper c = false /\ c ≠ "_"%char)
                   (list_ascii_of_string cut)).
  { unfold cut. repeat case_match; try done; by apply slice_from_chars. }
  unfold path_like, Api.strip. split_and!.
  - by apply rstrip_chars, lstrip_chars.
  - apply rstrip_head, lstrip_head.
  - apply rstrip_last.
Qed.

Lemma path_like_no_capital path :
  path_like path ->
  Forall (fun c => Api.is_upper c = false) (list_ascii_of_string path).
Proof. intros [H _]. eapply Forall_impl; [exact H|]. by intros c [? _]. Qed.

Lemma path_like_no_underscore path :
  path_like path -> ~ In "_"%char (list_ascii_of_string path).
Proof.
  intros [H _] Hin. rewrite Forall_forall in H.
  apply list_elem_of_In, H in Hin. by destruct Hin.
Qed.

Lemma api_path_of_path path :
  path_like path ->
  Api.api_path ("/api/v3/" ++ path) = path
  /\ Api.api_path ("api/v3/" ++ path) = path
  /\ (String.prefix "api/v3" path = false -> Api.api_path path = path).
Proof.
  intros Hpath.
  assert (Hcap := path_like_no_capital _ Hpath).
  assert (Hund := path_like_no_underscore _ Hpath).
  destruct Hpath as (_ & Hhead & Hlast).
  assert (Hstrip : Api.strip "/" path = path).
  { unfold Api.strip. by rewrite (lstrip_id _ _ Hhead), (rstrip_id _ _ Hlast). }
  unfold Api.api_path. rewrite !dash_capitals_one_pass. split_and!.
  - rewrite kebab_id by (rewrite !append_cons, append_nil; by repeat constructor).
    rewrite replace_id.
    + rewrite !append_cons, append_nil. simpl.
      by assert (String.prefix "" path = true) as -> by by destruct path.
    + rewrite !append_cons, append_nil. simpl. intros H.
      repeat (destruct H as [H|H]; [discriminate H|]). done.
  - rewrite kebab_id by (rewrite !append_cons, append_nil; by repeat constructor).
    rewrite replace_id.
    + rewrite !append_cons, append_nil. simpl.
      unfold Api.strip. simpl. by rewrite (lstrip_id _ _ Hhead), (rstrip_id _ _ Hlast).
    + rewrite !append_cons, append_nil. simpl. intros H.
      repeat (destruct H as [H|H]; [discriminate H|]). done.
  - intros Hprefix. rewrite (kebab_id _ Hcap), (replace_id _ _ _ Hund), Hprefix.
    assert (String.prefix "/api/v3/" path = false) as ->; [|exact Hstrip].
    clear -Hhead. destruct path as [|c path]; [done|].
    cbn [String.prefix]. simpl in Hhead.
    destruct (ascii_dec "/" c) as [<-|]; done.
Qed.

(** ** The request of a call *)

Lemma eq_str_true v s : Py.eq_str v s = true <-> v = PStr s.
Proof.
  destruct v; simpl; try (split; [discriminate|congruence]).
  rewrite String.eqb_eq. split; congruence.
Qed.

Section Requests.

Variable get_api_method : string -> Api.error + value.
Variable api_timeout : value.
Variable Request_raises : Api.Request -> option Api.error.

Abbreviation make_request :=
  (Api.make_request get_api_method api_timeout Request_raises).

(** What is left of the data once the file has been taken out of it. *)
Lemma make_request_inv api data token request :
  make_request api data token = inr request ->
  let given := default ∅ data in
  let kept := match given !! "files", given !! "file" with
              | Some _, _ => delete "files" given
              | None, Some _ => delete "file" given
              | None, None => given
              end in
  exists method sent_headers sent,
    (if negb (Py.truthy (Py.get given "method")) then get_api_method api
     else inr (Py.get given "method")) = inr method
    /\ match token with
       | Some token =>
           Api.lift (Py.setitem (default (PDict ∅) (given !! "headers"))
                       "Authorization" (PStr ("Bot " ++ token))) = inr sent_headers
           /\ sent = match given !! "headers" with
                     | Some _ => <["headers" := sent_headers]> kept
                     | None => kept
                     end
       | None => sent_headers = default (PDict ∅) (given !! "headers") /\ sent = kept
       end
    /\ Request_raises request = None
    /\ request =
         {| Api.method := method;
            Api.url := Api.api_root ++ api;
            Api.headers := sent_headers;
            Api.params := if Py.eq_str method "GET" then Some sent else None;
            Api.data := if Py.eq_str method "GET" then None
                        else if Py.eq_str method "POST" then Some sent else None;
            Api.files := match given !! "files", given !! "file" with
                         | Some f, _ => Some f
                         | None, Some f => Some (PDict (<["file" := f]> ∅))
                         | None, None => None
                         end;
            Api.timeout := api_timeout |}.
Proof.
  unfold Api.make_request. cbv zeta.
  set (given := default ∅ data).
  destruct (if negb _ then _ else _) as [e|method]; [done|]. cbn [mbind Api.error_bind].
  destruct (given !! "files") as [f|] eqn:Hfiles;
    [|destruct (given !! "file") as [f|] eqn:Hfile];
    (destruct token as [token|]; cbn [mbind mret Api.error_bind Api.error_ret];
     [destruct (Api.lift _) as [e|sent_headers] eqn:Hset; [done|]|];
     cbn [mbind mret Api.error_bind Api.error_ret]).
  all: destruct (Request_raises _) as [e|] eqn:Hbuilt; [done|].
  all: cbn [mbind mret Api.error_bind Api.error_ret].
  all: intros [= <-]; eexists _, _, _; split_and!; try done.
  all: rewrite ?lookup_delete_ne by done; done.
Qed.

(** With a token, the request goes to the address of the API under the
    root, and its headers are those given in the data, or none, with the
    authorization of the bot written over any given one. *)
Theorem authorization_header api data token request :
  make_request api data (Some token) = inr request ->
  exists sent : dict,
    Api.headers request = PDict sent
    /\ sent !! "Authorization" = Some (PStr ("Bot " ++ token))
    /\ (forall name, name ≠ "Authorization" ->
          sent !! name = match default ∅ data !! "headers" with
                         | Some (PDict given) => given !! name
                         | _ => None
                         end)
    /\ Api.url request = Api.api_root ++ api.
Proof.
  intros (method & sent_headers & sent & _ & [Hset _] & _ & ->)%make_request_inv.
  cbn [Api.headers Api.url].
  destruct (default ∅ data !! "headers") as [given|]; simpl in Hset.
  - destruct given; try discriminate Hset. injection Hset as <-.
    eexists. split_and!; [done|by rewrite lookup_insert_eq| |done].
    intros name Hname. by rewrite lookup_insert_ne.
  - injection Hset as <-.
    eexists. split_and!; [done|by rewrite lookup_insert_eq| |done].
    intros name Hname. by rewrite lookup_insert_ne.
Qed.

(** With a token, headers that are not a dict make the call fail before
    any request is made: with a [TypeError] when the data names the
    method. *)
Theorem headers_must_be_a_dict api data token given :
  data !! "headers" = Some given ->
  (forall fields, given ≠ PDict fields) ->
  (forall request, make_request api (Some data) (Some token) ≠ inr request)
  /\ (Py.truthy (Py.get data "method") = true ->
      make_request api (Some data) (Some token) = inl (Api.Exn TypeError)).
Proof.
  intros Hgiven Hnot. split.
  - intros request (method & sent_headers & sent & _ & [Hset _] & _ & _)%make_request_inv.
    simpl in Hset. rewrite Hgiven in Hset. simpl in Hset.
    destruct given; try discriminate Hset. by eapply Hnot.
  - intros Hmethod. unfold Api.make_request. cbv zeta. simpl default.
    rewrite Hmethod, Hgiven. simpl.
    destruct (data !! "files"); [|destruct (data !! "file")];
      destruct given; try done; by edestruct Hnot.
Qed.

(** The files of the request are those under "files", or else the one
    under "file" in a dict of its own; the entry they come from is not
    sent with the data, while a "file" beside "files" is. *)
Theorem files_leave_the_data api data token request sent :
  make_request api (Some data) token = inr request ->
  payload request = Some sent ->
  Api.files request = match data !! "files" with
                      | Some f => Some f
                      | None => (fun f => PDict (<["file" := f]> ∅)) <$> data !! "file"
                      end
  /\ sent !! "files" = None
  /\ sent !! "file" = match data !! "files" with
                      | Some _ => data !! "file"
                      | None => None
                      end.
Proof.
  intros (method & sent_headers & kept & _ & Hsent & _ & ->)%make_request_inv.
  unfold payload. cbn [Api.params Api.data Api.files]. simpl default in *.
  intros Hpayload.
  assert (kept = sent) as ->.
  { destruct (Py.eq_str method "GET"); [congruence|].
    destruct (Py.eq_str method "POST"); congruence. }
  clear Hpayload.
  assert (Hkept : exists rest,
    (sent = rest \/ sent = <["headers" := sent_headers]> rest)
    /\ rest = match data !! "files", data !! "file" with
              | Some _, _ => delete "files" data
              | None, Some _ => delete "file" data
              | None, None => data
              end).
  { destruct token as [token|]; destruct Hsent as [_ ->].
    - destruct (data !! "headers"); eauto.
    - eauto. }
  destruct Hkept as (rest & Hrest & ->).
  destruct (data !! "files") as [f|] eqn:Hfiles;
    [|destruct (data !! "file") as [f|] eqn:Hfile]; simpl;
    (split; [done|]);
    destruct Hrest as [->| ->];
    rewrite ?lookup_insert_ne by done;
    rewrite ?lookup_delete_eq, ?lookup_delete_ne by done; done.
Qed.

Lemma query_or_body api data token request :
  make_request api data token = inr request ->
  (is_Some (Api.params request) <-> Api.method request = PStr "GET")
  /\ (is_Some (Api.data request) <-> Api.method request = PStr "POST").
Proof.
  intros (method & sent_headers & sent & _ & _ & _ & ->)%make_request_inv.
  cbn [Api.params Api.data Api.method].
  destruct (Py.eq_str method "GET") eqn:Hget.
  - apply eq_str_true in Hget as ->. split.
    + by split; [|eauto].
    + split; [by intros [? ?]|done].
  - destruct (Py.eq_str method "POST") eqn:Hpost.
    + apply eq_str_true in Hpost as ->. split.
      * split; [by intros [? ?]|done].
      * by split; [|eauto].
    + split; (split; [by intros [? ?]|]).
      * intros ->. discriminate Hget.
      * intros ->. discriminate Hpost.
Qed.

(** The data travel as the query of a GET and as the body of a POST, and
    with any other method they do not travel.  What travels is the data
    of the call itself: every entry but the files, among them the method,
    and the headers with the authorization of the bot when the data held
    headers. *)
Theorem data_travel_whole api data token request :
  make_request api (Some data) token = inr request ->
  (is_Some (Api.params request) <-> Api.method request = PStr "GET")
  /\ (is_Some (Api.data request) <-> Api.method request = PStr "POST")
  /\ forall sent,
       payload request = Some sent ->
       (forall key, key ≠ "files" -> key ≠ "file" -> key ≠ "headers" ->
          sent !! key = data !! key)
       /\ (is_Some (data !! "headers") ->
           sent !! "headers" = Some (Api.headers request))
       /\ (data !! "headers" = None -> sent !! "headers" = None).
Proof.
  intros Hrequest.
  destruct (query_or_body _ _ _ _ Hrequest) as [Hget Hpost].
  split; [done|]. split; [done|]. clear Hget Hpost. revert Hrequest.
  intros (method & sent_headers & kept & _ & Hsent & _ & ->)%make_request_inv sent.
  unfold payload. cbn [Api.params Api.data Api.headers]. simpl default in *.
  intros Hpayload.
  assert (kept = sent) as ->.
  { destruct (Py.eq_str method "GET"); [congruence|].
    destruct (Py.eq_str method "POST"); congruence. }
  clear Hpayload.
  set (rest := match data !! "files", data !! "file" with
               | Some _, _ => delete "files" data
               | None, Some _ => delete "file" data
               | None, None => data
               end) in *.
  assert (Hrest : forall key, key ≠ "files" -> key ≠ "file" -> rest !! key = data !! key).
  { intros key ? ?. unfold rest.
    destruct (data !! "files"); [|destruct (data !! "file")];
      by rewrite ?lookup_delete_ne. }
  destruct token as [token|].
  - destruct Hsent as [Hset ->].
    destruct (data !! "headers") as [given|] eqn:Hgiven; split_and!.
    + intros key ? ? ?. rewrite lookup_insert_ne by done. by apply Hrest.
    + intros _. by rewrite lookup_insert_eq.
    + done.
    + intros key ? ? ?. by apply Hrest.
    + by intros [? ?].
    + intros _. by rewrite Hrest.
  - destruct Hsent as [-> ->]. split_and!.
    + intros key ? ? ?. by apply Hrest.
    + intros [given Hgiven]. rewrite Hrest by done. by rewrite Hgiven.
    + intros Hnone. by rewrite Hrest.
Qed.

End Requests.

(** ** The call *)

Section Call.

Variable get_api_method : string -> Api.error + value.
Variable get_api_restype : string -> option (value -> Api.error + value).
Variable _handle_api_result : Api.Response -> Api.error + value.
Variable adapter_exception : Api.error -> bool.
Variable init_raises : Api.error -> option Api.error.
Variable api_timeout : value.
Variable Request_raises : Api.Request -> option Api.error.
Variable driver : Api.Request -> Api.error + Api.Response.

Abbreviation _do_call_api :=
  (Api._do_call_api get_api_method get_api_restype _handle_api_result
     adapter_exception init_raises api_timeout Request_raises driver).

(** A call returns exactly when the request could be made, [Request]
    having accepted its arguments, the driver answered it with a status
    from 200 to 299 and a content, [_handle_api_result] accepted the
    answer, and the result type, if the API has one, parsed what it
    gave; without a result type the call returns [None]. *)
Theorem call_returns_iff api data token result :
  _do_call_api api data token = inr result <->
  exists request response handled,
    Api.make_request get_api_method api_timeout Request_raises api data token
    = inr request
    /\ Request_raises request = None
    /\ driver request = inr response
    /\ (200 <= Api.status_code response < 300)%Z
    /\ Api.has_content response = true
    /\ _handle_api_result response = inr handled
    /\ match get_api_restype api with
       | Some parse => parse handled = inr result
       | None => result = PNone
       end.
Proof.
  unfold Api._do_call_api. split.
  - destruct (Api.make_request _ _ _ _ _ _) as [e|request] eqn:Hmade; [done|].
    cbn [mbind Api.error_bind].
    destruct (Api.request _ _ _) as [e|response] eqn:Hrequest; [done|].
    cbn [mbind Api.error_bind].
    destruct (_handle_api_result response) as [e|handled] eqn:Hhandled; [done|].
    cbn [mbind Api.error_bind].
    apply request_returns in Hrequest as (Hsent & Hstatus & Hcontent).
    intros Hresult. exists request, response, handled.
    split_and!; try done; try apply Hstatus.
    + by apply make_request_inv in Hmade as (? & ? & ? & _ & _ & ? & _).
    + destruct (get_api_restype api); congruence.
  - intros (request & response & handled & -> & _ & Hsent & Hstatus & Hcontent
            & Hhandled & Hresult).
    cbn [mbind Api.error_bind].
    assert (Api.request adapter_exception init_raises (driver request)
            = inr response) as -> by by apply request_returns.
    cbn [mbind Api.error_bind]. rewrite Hhandled. cbn [mbind Api.error_bind].
    destruct (get_api_restype api); congruence.
Qed.

(** Without a forward driver no call is made: [_call_api] raises
    [ApiNotAvailable] whatever the API.  With one, an API named by a path
    in the form of the REST API is called at that path, whether the path
    comes bare, after "/api/v3/" or after "api/v3/", with the data of the
    call and the token of the bot. *)
Theorem call_api_by_path bot_token path data :
  path_like path ->
  let _call_api := Api._call_api get_api_method get_api_restype
                     _handle_api_result adapter_exception init_raises
                     api_timeout Request_raises driver in
  _call_api true bot_token ("/api/v3/" ++ path) data
  = _do_call_api path (Some data) (Some bot_token)
  /\ _call_api true bot_token ("api/v3/" ++ path) data
     = _do_call_api path (Some data) (Some bot_token)
  /\ (String.prefix "api/v3" path = false ->
      _call_api true bot_token path data
      = _do_call_api path (Some data) (Some bot_token))
  /\ forall api, _call_api false bot_token api data = inl Api.ApiNotAvailable.
Proof.
  intros (Hfull & Hshort & Hbare)%api_path_of_path. cbv zeta.
  unfold Api._call_api. rewrite Hfull, Hshort. split_and!; try done.
  intros Hprefix. by rewrite (Hbare Hprefix).
Qed.

End Call.

(** ** Starting the sessions *)

(** [start_forward] goes through every bot of the configuration, in
    order: a bot whose gateway is found, with an address that [URL]
    accepts, gets a task with that address and its token, after the tasks
    already there; any other bot is logged, and stops none of the bots
    after it. *)
Theorem start_forward_each_bot get_gateway valid_url bots tasks logged :
  Api.start_forward get_gateway valid_url bots tasks logged =
    ((tasks ++ omap (started get_gateway valid_url) bots)%list,
     (logged ++ filter (fun bot_token => started get_gateway valid_url bot_token = None)
                  bots)%list).
Proof.
  revert tasks logged. induction bots as [|bot_token bots IH]; intros tasks logged.
  - simpl. by rewrite !app_nil_r.
  - cbn [Api.start_forward omap list_omap]. rewrite filter_cons.
    destruct (get_gateway bot_token) as [e|url] eqn:Hgateway;
      [|destruct (valid_url url) eqn:Hurl].
    + assert (Hnone : started get_gateway valid_url bot_token = None)
        by (unfold started; by rewrite Hgateway).
      rewrite IH, decide_True by done. rewrite Hnone. by rewrite <- app_assoc.
    + assert (Hsome : started get_gateway valid_url bot_token = Some (url, bot_token))
        by (unfold started; by rewrite Hgateway, Hurl).
      rewrite IH, decide_False by by rewrite Hsome. rewrite Hsome.
      by rewrite <- app_assoc.
    + assert (Hnone : started get_gateway valid_url bot_token = None)
        by (unfold started; by rewrite Hgateway, Hurl).
      rewrite IH, decide_True by done. rewrite Hnone. by rewrite <- app_assoc.
Qed.

(** ** Examples *)

Section Examples.

#[local] Existing Instance sample_library.

Lemma signal_errors_come_from_signals_witness :
  exists envelope signal,
    reconnect_frame = PDict envelope
    /\ envelope !! "s" = Some signal
    /\ (sample_json_to_event ∅ reconnect_frame (Some "42")).2 = ∅.
Proof.
  destruct (signal_errors_come_from_signals spec_signals sample_types
              sample_HeartbeatMetaEvent sample_Event sample_repr sample_models
              ∅ reconnect_frame (Some "42") ReconnectError)
    as (envelope & signal & Henvelope & Hs & Hstore & _);
    [compute_eq|by left|].
  exists envelope, signal. split; [exact Henvelope|]. split; [exact Hs|exact Hstore].
Defined.

Lemma event_envelope_missing_parts_witness :
  sample_json_to_event ∅ (obj [("s", PInt 0)]) (Some "42")
  = (Raise (KeyError "sn"), ∅).
Proof.
  destruct (event_envelope_missing_parts spec_signals sample_types
              sample_HeartbeatMetaEvent sample_Event sample_repr sample_models
              ∅ (list_to_map [("s", PInt 0)]) (PInt 0) (Some "42")
              spec_signals_distinct)
    as [Hsn _]; [compute_eq|compute_eq|].
  apply Hsn. compute_eq.
Defined.

Lemma pong_and_reconnect_ignore_payload_witness :
  sample_json_to_event ∅ (PDict own_reconnect) (Some "42")
  = (Raise ReconnectError, ∅).
Proof.
  destruct (pong_and_reconnect_ignore_payload spec_signals sample_types
              sample_HeartbeatMetaEvent sample_Event sample_repr sample_models
              ∅ own_reconnect (PInt 6) (Some "42") spec_signals_distinct)
    as [_ Hreconnect]; [compute_eq|].
  apply Hreconnect. compute_eq.
Defined.

Lemma normalize_keeps_fields_witness :
  normalized sample_types text_payload (Some "42") !! "content"
  = text_payload !! "content".
Proof.
  destruct (normalize_keeps_fields sample_types text_payload (Some "42")
              (normalized sample_types text_payload (Some "42")))
    as [Hkept _]; [compute_eq|].
  apply Hkept. apply (bool_decide_unpack _). vm_compute. exact I.
Defined.

Lemma message_sub_type_and_event_witness :
  exists extra member rest,
    text_payload !! "extra" = Some (PDict extra)
    /\ matching_members sample_types extra = member :: rest
    /\ normalized sample_types text_payload (Some "42") !! "sub_type"
       = Some (PStr (Py.lower member.1)).
Proof.
  destruct (message_sub_type_and_event sample_types text_payload (Some "42")
              (normalized sample_types text_payload (Some "42")))
    as (extra & member & rest & Hextra & Hmembers & Hsub & _);
    [compute_eq|compute_eq|].
  exists extra, member, rest.
  split; [exact Hextra|]. split; [exact Hmembers|exact Hsub].
Defined.

Lemma notice_type_and_message_witness :
  exists content message,
    notice_payload !! "content" = Some content
    /\ Py.format_template content = inr message
    /\ normalized sample_types notice_payload (Some "42") !! "message"
       = Some message.
Proof.
  destruct (notice_type_and_message sample_types notice_payload (Some "42")
              (normalized sample_types notice_payload (Some "42")))
    as (extra & content & message & _ & Hcontent & _ & Hformat & Hmessage & _);
    [compute_eq|compute_eq|].
  exists content, message.
  split; [exact Hcontent|]. split; [exact Hformat|exact Hmessage].
Defined.

Lemma message_event_name_witness :
  event_name sample_repr (normalized sample_types text_payload (Some "42"))
  = inr "message.group.text".
Proof.
  apply (message_event_name sample_types sample_repr text_payload (Some "42")
           (normalized sample_types text_payload (Some "42")) "group" "text");
    compute_eq.
Defined.

Lemma catch_all_model_resolves_witness :
  exists name,
    event_name sample_repr (normalized sample_types person_payload (Some "42"))
    = inr name
    /\ sample_MessageEvent ∈ get_event_model sample_models name.
Proof.
  destruct (catch_all_model_resolves spec_signals sample_types
              sample_HeartbeatMetaEvent sample_Event sample_repr sample_models
              ∅ person_envelope (PInt 0) (PInt 7) person_payload (Some "42")
              (normalized sample_types person_payload (Some "42"))
              "message" sample_MessageEvent spec_signals_distinct)
    as [Hcandidate _];
    [compute_eq|compute_eq|compute_eq|compute_eq|compute_eq|compute_eq|compute_eq
    |compute_eq|].
  exact Hcandidate.
Defined.

Lemma add_custom_model_overwrites_witness :
  add_custom_model sample_models sample_CustomTextEvent
  = add_custom_model text_models sample_CustomTextEvent.
Proof.
  destruct (add_custom_model text_models sample_CustomTextEvent)
    as [e|event_models2] eqn:Hsecond; [discriminate Hsecond|].
  apply (add_custom_model_overwrites sample_models sample_TextEvent
           sample_CustomTextEvent text_models event_models2);
    [compute_eq|compute_eq|exact Hsecond].
Defined.

Lemma ping_reports_last_event_witness :
  ping (sample_json_to_event ∅ (PDict example_envelope) (Some "42")).2 "42"
  = PDict (<["sn" := PInt 42]> (<["s" := PInt 2]> ∅)).
Proof.
  destruct (ping_reports_last_event spec_signals sample_types
              sample_HeartbeatMetaEvent sample_Event sample_repr sample_models
              ∅ example_envelope (PInt 0) (PInt 42) "42" spec_signals_distinct)
    as [Hping _]; [compute_eq|compute_eq|compute_eq|].
  exact Hping.
Defined.

Lemma heartbeat_send_failure_witness :
  (start_heartbeat "42" [open_round; failing_round; open_round]).2
  = Raised NetworkError.
Proof.
  destruct (heartbeat_send_failure "42" [open_round] failing_round [open_round]
              NetworkError)
    as [Hraised _]; [| |compute_eq|exact Hraised].
  - constructor; [|constructor].
    split; [eexists; split; compute_refl|reflexivity].
  - eexists. split; compute_refl.
Defined.


Lemma bound_bot_is_kept_witness :
  exists r a',
    receive_loop spec_signals sample_types sample_HeartbeatMetaEvent sample_Event
      sample_repr sample_models "token" lost_connection sample_socket
      bound_adapter bound_session [inr (event_frame 18)]
    = (r, a', bound_session)
    /\ connections a' = connections bound_adapter.
Proof.
  destruct (bound_bot_is_kept spec_signals sample_types sample_HeartbeatMetaEvent
              sample_Event sample_repr sample_models "token" lost_connection
              sample_socket bound_adapter bound_session sample_bot
              [inr (event_frame 18)])
    as (r & a' & new & Hloop & Hconnections & _); [compute_eq|].
  exists r, a'. split; [exact Hloop|exact Hconnections].
Defined.

Lemma bot_is_bound_by_connect_witness :
  exists r a' s' ev store,
    receive_loop spec_signals sample_types sample_HeartbeatMetaEvent sample_Event
      sample_repr sample_models "token" next_connection sample_socket
      fresh_adapter fresh_session (frames next_connection)
    = (r, a', s')
    /\ bot s' = Some sample_bot
    /\ sample_json_to_event ∅ hello_frame None = (Return (Some ev), store)
    /\ isinstance ev "LifecycleMetaEvent" = true
    /\ notified a' = [HandleEvent sample_bot ev; BotConnect sample_bot].
Proof.
  destruct (bot_is_bound_by_connect spec_signals sample_types
              sample_HeartbeatMetaEvent sample_Event sample_repr sample_models
              "token" next_connection sample_socket fresh_adapter fresh_session
              (frames next_connection))
    as (r & a' & s' & Hloop & Hcase); [compute_eq|].
  destruct Hcase
    as [(Hnone & _)
       |(id & username & before & json_data & after & a0 & store & ev & later
         & Hcase)].
  { assert (Hbound : bot s' = Some sample_bot).
    { change s' with (r, a', s').2. rewrite <- Hloop. compute_eq. }
    rewrite Hbound in Hnone. discriminate Hnone. }
  cbv zeta in Hcase.
  destruct Hcase
    as (Hfs & Hbefore & _ & _ & Hdecoded & Hinst & _ & Hinfo & -> & _ & Hnotified
        & _).
  destruct before as [|frame before]; [|by destruct before].
  injection Hfs as <- <-. injection Hbefore as <-.
  injection Hinfo as <- <-.
  exists r, a', {| bot := Some sample_bot; url := url fresh_session |}, ev, store.
  split; [exact Hloop|]. split; [reflexivity|]. split; [exact Hdecoded|].
  split; [exact Hinst|].
  assert (Hone : length (notified a') = 2).
  { transitivity
      (length (notified
         (receive_loop spec_signals sample_types sample_HeartbeatMetaEvent
            sample_Event sample_repr sample_models "token" next_connection
            sample_socket fresh_adapter fresh_session
            (frames next_connection)).1.2)).
    - by rewrite Hloop.
    - compute_eq. }
  rewrite Hnotified in Hone |- *. rewrite length_app in Hone. simpl in Hone.
  destruct later; [done|simpl in Hone; lia].
Defined.

Lemma token_error_is_retried_witness :
  exists e a' s',
    turn spec_signals sample_types sample_HeartbeatMetaEvent sample_Event
      sample_repr sample_models "token" expired_connection fresh_adapter
      fresh_session
    = (Retry e, a', s').
Proof.
  edestruct (token_error_is_retried spec_signals sample_types
               sample_HeartbeatMetaEvent sample_Event sample_repr sample_models
               "token" expired_connection [next_connection] sample_socket
               fresh_adapter fresh_session)
    as (e & a' & s' & Hturn & _); [compute_refl|compute_refl|].
  exists e, a', s'. exact Hturn.
Defined.

Lemma break_leaves_no_bot_bound_witness :
  bot (turn spec_signals sample_types sample_HeartbeatMetaEvent sample_Event
         sample_repr sample_models "token" reconnecting_connection fresh_adapter
         fresh_session).2
  = None.
Proof.
  destruct (break_leaves_no_bot_bound spec_signals sample_types
              sample_HeartbeatMetaEvent sample_Event sample_repr sample_models
              "token" reconnecting_connection fresh_adapter fresh_session
              (turn spec_signals sample_types sample_HeartbeatMetaEvent
                 sample_Event sample_repr sample_models "token"
                 reconnecting_connection fresh_adapter fresh_session).1.2
              (turn spec_signals sample_types sample_HeartbeatMetaEvent
                 sample_Event sample_repr sample_models "token"
                 reconnecting_connection fresh_adapter fresh_session).2)
    as [Hbot _]; [compute_eq|].
  exact Hbot.
Defined.



Lemma user_me_path_like : path_like "user/me".
Proof.
  split_and!; [|done|done].
  repeat (constructor; [split; [reflexivity|discriminate]|]). constructor.
Qed.

Lemma call_api_by_path_witness :
  sample_call_api true "token" "/api/v3/user/me" ∅
  = sample_do_call_api "user/me" (Some ∅) (Some "token")
  /\ sample_call_api true "token" "api/v3/user/me" ∅
     = sample_do_call_api "user/me" (Some ∅) (Some "token").
Proof.
  destruct (call_api_by_path sample_get_api_method (fun _ => None)
              (fun _ => inr PNone) sample_adapter_exception sample_init_raises
              (PInt 30) sample_Request_raises sample_driver "token" "user/me" ∅
              user_me_path_like)
    as (Hfull & Hshort & _).
  split; [exact Hfull|exact Hshort].
Defined.

Lemma authorization_header_witness :
  exists sent : dict,
    Api.headers upload_request = PDict sent
    /\ sent !! "Authorization" = Some (PStr "Bot token").
Proof.
  destruct (authorization_header sample_get_api_method (PInt 30)
              sample_Request_raises "asset/create" (Some upload_data) "token"
              upload_request)
    as (sent & Hheaders & Hauthorization & _); [compute_eq|].
  exists sent. split; [exact Hheaders|exact Hauthorization].
Defined.

Lemma headers_must_be_a_dict_witness :
  sample_make_request "user/me" (Some malformed_data) (Some "token")
  = inl (Api.Exn TypeError).
Proof.
  destruct (headers_must_be_a_dict sample_get_api_method (PInt 30)
              sample_Request_raises "user/me" malformed_data "token"
              (PStr "Accept: */*"))
    as [_ Hraises]; [compute_eq|discriminate|].
  apply Hraises. compute_eq.
Defined.

Lemma files_leave_the_data_witness :
  Api.files upload_request = Some (obj [("file", PStr "bytes")])
  /\ upload_sent !! "file" = None.
Proof.
  destruct (files_leave_the_data sample_get_api_method (PInt 30)
              sample_Request_raises "asset/create" upload_data (Some "token")
              upload_request upload_sent)
    as (Hfiles & _ & Hfile); [compute_eq|compute_eq|].
  split; [rewrite Hfiles; compute_eq|rewrite Hfile; compute_eq].
Defined.

Lemma data_travel_whole_witness :
  is_Some (Api.data upload_request) <-> Api.method upload_request = PStr "POST".
Proof.
  destruct (data_travel_whole sample_get_api_method (PInt 30)
              sample_Request_raises "asset/create" upload_data (Some "token")
              upload_request)
    as (_ & Hbody & _); [compute_eq|].
  exact Hbody.
Defined.

End Examples.
